(** * TimePRO MCP server: timesheet derivation, update merge and transport

    A shallow embedding of the TypeScript sources

    - [src/timepro-client.ts]  (class [TimeProClient]),
    - [src/types.ts]           (the records exchanged with the service),
    - the server entry point   (the tool handlers, [calculateHours],
                                [formatDateTime]; of its variants the one
                                that validates the time range on create and
                                sends the break in hours),

    followed by the properties of the derivation engine and of the tool
    dispatcher.

    Modelling conventions.

    - A JavaScript [number] is an exact rational or [NaN]: rounding of
      IEEE doubles and the infinities are not represented.  A string is a
      sequence of one-byte characters.
    - A value of type [T | undefined] is an [option T]; [None] is
      [undefined].  The employee identity, which the client tests against
      [null], is an [option (option string)]: [None] is [null],
      [Some None] is [undefined].
    - Tool arguments and decoded response bodies have the types that the
      tool schemas and [types.ts] declare (the [as string] / [as number]
      casts of the source); any of their fields may be absent.
    - An [async] method is a function of the remote service and of the
      client object; it returns a value or a thrown exception together with
      the client object after the call.  Every request that goes through
      [TimeProClient.fetch] is appended to the [sent] log of the client. *)

From Stdlib Require Import ZArith QArith Qreduction Lqa Lia List String Ascii Bool.
Import ListNotations.

Set Implicit Arguments.

(** ** The parts of the JavaScript runtime that the sources use *)

Module Js.

Local Open Scope Q_scope.

(** [number]. *)
Inductive num : Type :=
| Fin (q : Q)
| NaN.

Definition of_Z (z : Z) : num := Fin (inject_Z z).

Definition nadd (a b : num) : num :=
  match a, b with Fin x, Fin y => Fin (x + y) | _, _ => NaN end.

Definition nsub (a b : num) : num :=
  match a, b with Fin x, Fin y => Fin (x - y) | _, _ => NaN end.

Definition nmul (a b : num) : num :=
  match a, b with Fin x, Fin y => Fin (x * y) | _, _ => NaN end.

(** Division; the sources only ever divide by the literal 60, a zero
    divisor (an infinity or [NaN] in the runtime) is mapped to [NaN]. *)
Definition ndiv (a b : num) : num :=
  match a, b with
  | Fin x, Fin y => if Qeq_bool y 0 then NaN else Fin (x / y)
  | _, _ => NaN
  end.

(** [a <= b]; every comparison with [NaN] is false. *)
Definition nle (a b : num) : bool :=
  match a, b with Fin x, Fin y => Qle_bool x y | _, _ => false end.

(** The same number (rationals up to [==]). *)
Definition same_num (a b : num) : Prop :=
  match a, b with
  | Fin x, Fin y => x == y
  | NaN, NaN => True
  | _, _ => False
  end.

(** Truthiness, as used by [!x] and [x || y]. *)
Definition truthy_num (n : num) : bool :=
  match n with Fin q => negb (Qeq_bool q 0) | NaN => false end.

Definition truthy_str (s : string) : bool :=
  match s with EmptyString => false | String _ _ => true end.

Definition truthy {A} (t : A -> bool) (o : option A) : bool :=
  match o with Some a => t a | None => false end.

(** [x || y] where [x] may be undefined. *)
Definition or_else {A} (t : A -> bool) (x : option A) (y : A) : A :=
  match x with
  | Some a => if t a then a else y
  | None => y
  end.

(** [s.split(sep)] for a one-character separator. *)
Fixpoint split (sep : ascii) (s : string) : list string :=
  match s with
  | EmptyString => [EmptyString]
  | String c r =>
      if Ascii.eqb c sep then EmptyString :: split sep r
      else match split sep r with
           | p :: ps => String c p :: ps
           | [] => [String c EmptyString]
           end
  end.

(** *** [Number(s)]

    Modelled on optionally signed decimal literals with an optional
    fraction, surrounded by ASCII white space; the empty string is 0.
    Exponents, radix prefixes and [Infinity], which the runtime also
    accepts, are mapped to [NaN]. *)

Definition digit_of (c : ascii) : option Z :=
  let n := nat_of_ascii c in
  if (48 <=? n)%nat && (n <=? 57)%nat then Some (Z.of_nat (n - 48)) else None.

Fixpoint digits_val (acc : Z) (s : string) : option Z :=
  match s with
  | EmptyString => Some acc
  | String c r =>
      match digit_of c with
      | Some d => digits_val (10 * acc + d) r
      | None => None
      end
  end.

Definition is_space (c : ascii) : bool :=
  let n := nat_of_ascii c in
  ((9 <=? n)%nat && (n <=? 13)%nat) || (n =? 32)%nat.

Fixpoint trim_start (s : string) : string :=
  match s with
  | String c r => if is_space c then trim_start r else s
  | EmptyString => EmptyString
  end.

Fixpoint rev_string (acc s : string) : string :=
  match s with
  | EmptyString => acc
  | String c r => rev_string (String c acc) r
  end.

Definition trim (s : string) : string :=
  rev_string EmptyString
    (trim_start (rev_string EmptyString (trim_start s))).

Definition unsigned_literal (s : string) : option Q :=
  match split "." s with
  | [i] =>
      match i with
      | EmptyString => None
      | _ => option_map inject_Z (digits_val 0 i)
      end
  | [i; f] =>
      match i, f with
      | EmptyString, EmptyString => None
      | _, _ =>
          match digits_val 0 i, digits_val 0 f with
          | Some a, Some b =>
              let k := Z.pow 10 (Z.of_nat (String.length f)) in
              Some (Qred (Qmake (a * k + b) (Z.to_pos k)))
          | _, _ => None
          end
      end
  | _ => None
  end.

Definition Number (s : string) : num :=
  match trim s with
  | EmptyString => Fin 0
  | String c r =>
      let lit (neg : bool) (body : string) :=
        match unsigned_literal body with
        | Some q => Fin (if neg then Qred (- q) else q)
        | None => NaN
        end in
      if Ascii.eqb c "-" then lit true r
      else if Ascii.eqb c "+" then lit false r
      else lit false (String c r)
  end.

(** [s.replace(/\/$/, "")]: a slash at the very end of [s] is removed. *)
Fixpoint remove_trailing_slash (s : string) : string :=
  match s with
  | EmptyString => EmptyString
  | String c EmptyString => if Ascii.eqb c "/" then EmptyString else s
  | String c r => String c (remove_trailing_slash r)
  end.

End Js.

(** ** [src/types.ts] *)

(** A template literal is kept as the sequence of its parts, so that the
    runtime's conversion of numbers to text stays a parameter ([render]). *)
Inductive piece : Type :=
| Lit (s : string)
| Val (n : Js.num).

Definition text : Type := list piece.

Fixpoint render (show : Js.num -> string) (t : text) : string :=
  match t with
  | [] => EmptyString
  | Lit s :: r => (s ++ render show r)%string
  | Val n :: r => (show n ++ render show r)%string
  end.

(** [TimesheetDetails], the record as the service reports it.  The fields
    that no handler reads (names of employee, project type and category,
    audit columns) are left out. *)
Module Details.
Record t : Type := mk {
  TimesheetID : option Js.num;
  ClientID : option string;
  ClientName : option string;
  ProjectID : option string;
  CategoryID : option string;
  LocationID : option string;
  BillableID : option string;
  DateCreated : option string;
  StartTime : option string;      (* time portion HH:MM:SS *)
  EndTime : option string;        (* time portion HH:MM:SS *)
  TimeLess : option Js.num;       (* minutes in response *)
  TimeTotal : option Js.num;
  TimeBillable : option Js.num;
  SellPrice : option Js.num;
  SalesTaxPct : option Js.num;
  Note : option string
}.

(** The object [{}]: every field is undefined. *)
Definition empty : t :=
  mk None None None None None None None None
     None None None None None None None None.
End Details.

(** The employee identity as the service answers it and as the client
    keeps it: [None] is [null], [Some None] is [undefined]. *)
Definition ident : Type := option (option string).

(** [TimesheetDto], the payload of [SaveTimesheet]. *)
Module Dto.
Record t : Type := mk {
  TimeID : option Js.num;         (* absent for new *)
  EmpID : ident;
  ClientID : option string;
  ProjectID : option string;
  CategoryID : option string;
  LocationID : option string;
  BillableID : option string;
  DateCreated : string;           (* YYYY-MM-DD *)
  TimeStart : string;             (* YYYY-MM-DDTHH:MM:SS *)
  TimeEnd : string;
  TimeLess : Js.num;              (* hours as decimal *)
  TimeTotal : Js.num;             (* hours *)
  TimeBillable : Js.num;          (* hours *)
  SellPrice : option Js.num;
  SalesTaxPct : Js.num;
  Notes : option string
}.
End Dto.

(** What [JSON.parse] makes of a response body, by the type the caller
    reads it at.  Reading a field from a value of another shape gives
    undefined.  The identity may be [null]; a [null] in another field, and
    a body that is the literal [null], lie outside the declared types and
    have no counterpart here. *)
Inductive Json : Type :=
| JEmpty                                  (* {} *)
| JEmployee (EmpID : ident)               (* { EmpID } *)
| JRate (Rate : option Js.num)            (* ClientRate *)
| JDetails (d : Details.t)                (* TimesheetDetails *)
| JOther (raw : string).                  (* lists and views, passed through *)

Definition EmpID_of (j : Json) : ident :=
  match j with JEmployee e => e | _ => Some None end.

Definition Rate_of (j : Json) : option Js.num :=
  match j with JRate r => r | _ => None end.

Definition details_of (j : Json) : Details.t :=
  match j with JDetails d => d | _ => Details.empty end.

(** ** [src/timepro-client.ts] *)

Module TimeProClient.
Import Js.
Local Open Scope string_scope.

(** A request as a client method hands it to [this.fetch]: one
    constructor for each endpoint template, with the values that the
    method puts into it ([endpoint] and [http_method] below give the text
    and the method).  The address is the base URL followed by that text;
    how the runtime resolves it is not part of the client. *)
Inductive Request : Type :=
| GetEmployeeID
| GetClientListForAddTimesheet (searchText : string)
| ProjectsClient (clientId : string)
| GetRecentProjects (empId : ident)
| GetTimesheetCategories
| GetTimesheetLocation
| GetAddTimesheetsView (empId : ident) (date : string)
| GetClientRate (empId : ident) (clientId : string)
| Summary (empId : ident) (startDate endDate : string)
| GetEditTimesheetsView (timesheetId : num)
| SaveTimesheet (isEdit : bool) (timesheet : Dto.t)
| DeleteTimesheet (timesheetId : num).

Inductive Method : Type := GET | POST | DELETE.

(** [options.method]; a request without options is a GET. *)
Definition http_method (r : Request) : Method :=
  match r with
  | SaveTimesheet _ _ => POST
  | DeleteTimesheet _ => DELETE
  | _ => GET
  end.

(** [`${empId}`] *)
Definition show_ident (e : ident) : string :=
  match e with
  | None => "null"
  | Some None => "undefined"
  | Some (Some s) => s
  end.

(** The first argument of [this.fetch].  Only the search text is passed
    through [encodeURIComponent]; every other string is put in as it is. *)
Definition endpoint (encodeURIComponent : string -> string) (r : Request)
  : text :=
  match r with
  | GetEmployeeID => [Lit "/api/Employees/GetEmployeeID"]
  | GetClientListForAddTimesheet searchText =>
      [Lit "/api/Timesheets/GetClientListForAddTimesheet?searchText=";
       Lit (encodeURIComponent searchText)]
  | ProjectsClient clientId => [Lit "/api/Projects/Client/"; Lit clientId]
  | GetRecentProjects empId =>
      [Lit "/api/Projects/GetRecentProjects?empId="; Lit (show_ident empId)]
  | GetTimesheetCategories => [Lit "/api/Timesheets/GetTimesheetCategories"]
  | GetTimesheetLocation => [Lit "/api/Timesheets/GetTimesheetLocation"]
  | GetAddTimesheetsView empId date =>
      [Lit "/api/Timesheets/GetAddTimesheetsView?empID=";
       Lit (show_ident empId); Lit "&date="; Lit date]
  | GetClientRate empId clientId =>
      [Lit "/api/Timesheets/GetClientRate?empID="; Lit (show_ident empId);
       Lit "&clientID="; Lit clientId]
  | Summary empId startDate endDate =>
      [Lit "/api/Timesheets/Summary?employeeID="; Lit (show_ident empId);
       Lit "&start="; Lit startDate; Lit "&end="; Lit endDate]
  | GetEditTimesheetsView timesheetId =>
      [Lit "/api/Timesheets/GetEditTimesheetsView?timeID="; Val timesheetId]
  | SaveTimesheet isEdit _ =>
      if isEdit
      then [Lit "/api/Timesheets/SaveTimesheet?isEdit=true&isSuggested=false"]
      else [Lit "/api/Timesheets/SaveTimesheet?isEdit=false&isSuggested=false"]
  | DeleteTimesheet timesheetId =>
      [Lit "/api/Timesheets/DeleteTimesheet/"; Val timesheetId]
  end.

Record Response : Type := {
  status : Z;
  statusText : string;
  body : string;                  (* response.text() *)
  parsed : option Json            (* JSON.parse of it; None: it throws *)
}.

(** [response.ok] *)
Definition ok (r : Response) : bool :=
  (200 <=? status r)%Z && (status r <=? 299)%Z.

(** The remote service answers a request knowing the requests that came
    before; [None] is a request that fails below HTTP. *)
Definition Remote : Type := list Request -> Request -> option Response.

(** The client object: the memoized identity ([None] is [null]) and the
    log of the requests issued so far. *)
Record Client : Type := {
  employeeId : option (option string);
  sent : list Request
}.

Definition fresh : Client := {| employeeId := None; sent := [] |}.

Inductive ErrorCode : Type := InvalidParams | MethodNotFound.

Inductive exn : Type :=
| McpError (code : ErrorCode) (message : text)
| JsError (message : text).       (* Error, TypeError, SyntaxError *)

Inductive Outcome (A : Type) : Type :=
| Returned (a : A)
| Thrown (e : exn).
Arguments Thrown {A} e.

Definition M (A : Type) : Type := Remote -> Client -> Outcome A * Client.

Definition ret {A} (a : A) : M A := fun _ c => (Returned a, c).

Definition throw {A} (e : exn) : M A := fun _ c => (Thrown e, c).

Definition bind {A B} (m : M A) (k : A -> M B) : M B :=
  fun srv c =>
    match m srv c with
    | (Returned a, c') => k a srv c'
    | (Thrown e, c') => (Thrown e, c')
    end.

Definition try_catch {A} (m : M A) (h : exn -> M A) : M A :=
  fun srv c =>
    match m srv c with
    | (Returned a, c') => (Returned a, c')
    | (Thrown e, c') => h e srv c'
    end.

Declare Scope js_scope.
Delimit Scope js_scope with js.
Notation "x <- m ;; k" := (bind m (fun x => k))
  (at level 100, m at next level, right associativity) : js_scope.
Local Open Scope js_scope.

Definition fetch_error (response : Response) : text :=
  [Lit "TimePRO API error ("; Val (of_Z (status response)); Lit "): ";
   Lit (or_else truthy_str (Some (body response)) (statusText response))].

Definition fetch (endpoint : Request) : M Json :=
  fun srv c =>
    let c' := {| employeeId := employeeId c; sent := sent c ++ [endpoint] |} in
    match srv (sent c) endpoint with
    | None => (Thrown (JsError [Lit "fetch failed"]), c')
    | Some response =>
        if negb (ok response) then
          (Thrown (JsError (fetch_error response)), c')
        else if negb (truthy_str (body response)) then
          (Returned JEmpty, c')
        else
          match parsed response with
          | Some j => (Returned j, c')
          | None => (Thrown (JsError [Lit "Unexpected token in JSON"]), c')
          end
    end.

Definition set_employeeId (e : ident) : M unit :=
  fun _ c => (Returned tt, {| employeeId := e; sent := sent c |}).

Definition getEmployeeId : M ident :=
  fun srv c =>
    match employeeId c with
    | Some e => (Returned (Some e), c)
    | None =>
        (response <- fetch GetEmployeeID ;;
         _ <- set_employeeId (EmpID_of response) ;;
         ret (EmpID_of response)) srv c
    end.

Definition searchClients (searchText : string) : M Json :=
  fetch (GetClientListForAddTimesheet searchText).

Definition getProjectsForClient (clientId : string) : M Json :=
  fetch (ProjectsClient clientId).

Definition getRecentProjects : M Json :=
  empId <- getEmployeeId ;; fetch (GetRecentProjects empId).

Definition getCategories : M Json := fetch GetTimesheetCategories.

Definition getLocations : M Json := fetch GetTimesheetLocation.

Definition getTimesheetDefaults (date : string) : M Json :=
  empId <- getEmployeeId ;; fetch (GetAddTimesheetsView empId date).

Definition getClientRate (clientId : string) : M Json :=
  empId <- getEmployeeId ;; fetch (GetClientRate empId clientId).

Definition listTimesheets (startDate endDate : string) : M Json :=
  empId <- getEmployeeId ;; fetch (Summary empId startDate endDate).

Definition getTimesheet (timesheetId : num) : M Details.t :=
  j <- fetch (GetEditTimesheetsView timesheetId) ;; ret (details_of j).

Definition createTimesheet (timesheet : Dto.t) : M Details.t :=
  j <- fetch (SaveTimesheet false timesheet) ;; ret (details_of j).

Definition updateTimesheet (timesheet : Dto.t) : M unit :=
  _ <- fetch (SaveTimesheet true timesheet) ;; ret tt.

Definition deleteTimesheet (timesheetId : num) : M unit :=
  _ <- fetch (DeleteTimesheet timesheetId) ;; ret tt.

(** The fields that the constructor sets from its arguments, and the
    address of a request, [`${this.baseUrl}${endpoint}`]. *)
Record Connection : Type := {
  baseUrl : string;
  apiKey : string;
  tenantId : string
}.

Definition constructor (baseUrl apiKey tenantId : string) : Connection * Client :=
  ({| baseUrl := remove_trailing_slash baseUrl;   (* Remove trailing slash *)
      apiKey := apiKey;
      tenantId := tenantId |},
   fresh).

Definition url (this : Connection) (endpoint : string) : string :=
  (baseUrl this ++ endpoint)%string.

End TimeProClient.

(** ** The server: helpers and tool handlers *)

Module Server.
Import Js TimeProClient.
Local Open Scope string_scope.
Local Open Scope js_scope.

(** The arguments of a tool call; an undefined [arguments] object is
    [no_args]. *)
Record Args : Type := {
  search_text : option string;
  client_id : option string;
  project_id : option string;
  category_id : option string;
  date : option string;
  start_date : option string;
  end_date : option string;
  start_time : option string;
  end_time : option string;
  break_minutes : option num;
  location_id : option string;
  billable_id : option string;
  note : option string;
  timesheet_id : option num
}.

Definition no_args : Args :=
  Build_Args None None None None None None None
             None None None None None None None.

(** The text payload of a tool result, before [JSON.stringify]. *)
Inductive Body : Type :=
| BodyJson (j : Json)
| BodyDetails (d : Details.t)
| BodyCreated (timesheet_id : option num) (client project date : option string)
              (hours : option num)
| BodyMessage (message : text)          (* { success: true, message } *)
| BodyError (error : text).             (* { success: false, error } *)

Record ToolResult : Type := {
  content : Body;
  isError : bool
}.

Definition success (b : Body) : M ToolResult :=
  ret {| content := b; isError := false |}.

(** A destructured array element; a missing one is undefined, which
    arithmetic turns into [NaN]. *)
Definition element (l : list num) (i : nat) : num := nth i l NaN.

Record Hours : Type := { total : num; billable : num }.

Definition calculateHours (startTime endTime : string)
           (breakMinutes : option num) : Hours :=
  let breakMinutes :=
    match breakMinutes with Some b => b | None => of_Z 0 end in
  let startHM := map Number (split ":" startTime) in
  let endHM := map Number (split ":" endTime) in
  let startMinutes :=
    nadd (nmul (element startHM 0) (of_Z 60)) (element startHM 1) in
  let endMinutes :=
    nadd (nmul (element endHM 0) (of_Z 60)) (element endHM 1) in
  let workedMinutes := nsub (nsub endMinutes startMinutes) breakMinutes in
  let total := ndiv workedMinutes (of_Z 60) in
  {| total := total; billable := total |}.

Definition formatDateTime (date time : string) : string :=
  let timeParts := split ":" time in
  let formattedTime :=
    if (List.length timeParts =? 3)%nat then time else time ++ ":00" in
  date ++ "T" ++ formattedTime.

(** The helper of the variant that sends bare times (HH:MM -> HH:MM:SS). *)
Definition formatTime (time : string) : string :=
  (* If already has seconds, return as-is *)
  if (List.length (split ":" time) =? 3)%nat then time else time ++ ":00".

Definition type_error {A} : M A :=
  throw (JsError [Lit "Cannot read properties of undefined"]).

(** [x || y] on possibly undefined operands. *)
Definition or_undefined {A} (t : A -> bool) (x y : option A) : option A :=
  match x with
  | Some a => if t a then Some a else y
  | None => y
  end.

(** [x || o.m(...)]: the method call is evaluated only when [x] is falsy;
    it is a [TypeError] ([None]) when [o] is undefined. *)
Definition or_method (x o : option string) (m : string -> string)
  : option string :=
  match x with
  | Some a => if truthy_str a then Some a else option_map m o
  | None => option_map m o
  end.

Definition or_throw {A} (o : option A) : M A :=
  match o with Some a => ret a | None => type_error end.

(** [x !== undefined ? x : y] *)
Definition if_defined {A} (x y : option A) : option A :=
  match x with Some a => Some a | None => y end.

(** A possibly undefined operand of an arithmetic operator. *)
Definition to_num (x : option num) : num :=
  match x with Some n => n | None => NaN end.

Definition invalid_time_range (breakMinutes : num) (startTime endTime : string)
           (total : num) : text :=
  [Lit "Invalid time range: break_minutes ("; Val breakMinutes;
   Lit ") exceeds or equals total work time. ";
   Lit "Start: "; Lit startTime; Lit ", End: "; Lit endTime;
   Lit ", Total hours: "; Val (nadd total (ndiv breakMinutes (of_Z 60)));
   Lit ", Break: "; Val (ndiv breakMinutes (of_Z 60)); Lit " hours. ";
   Lit "Billable hours must be positive."].

Definition create_timesheet (args : Args) : M ToolResult :=
  let breakMinutes := or_else truthy_num (break_minutes args) (of_Z 0) in
  let billableId := billable_id args in
  let note := note args in
  let missing {A} : M A :=
    throw (McpError InvalidParams
      [Lit "client_id, project_id, category_id, date, start_time, end_time, and location_id are all required"]) in
  match client_id args, project_id args, category_id args, date args,
        start_time args, end_time args, location_id args with
  | Some clientId, Some projectId, Some categoryId, Some date,
    Some startTime, Some endTime, Some locationId =>
      if negb (truthy_str clientId) || negb (truthy_str projectId)
         || negb (truthy_str categoryId) || negb (truthy_str date)
         || negb (truthy_str startTime) || negb (truthy_str endTime)
         || negb (truthy_str locationId)
      then missing
      else
        empId <- getEmployeeId ;;
        let h := calculateHours startTime endTime (Some breakMinutes) in
        (* Validate that billable hours is positive *)
        if nle (billable h) (of_Z 0) then
          throw (McpError InvalidParams
                   (invalid_time_range breakMinutes startTime endTime (total h)))
        else
          (* Get rate for this client *)
          rateInfo <- getClientRate clientId ;;
          let sellPrice := Rate_of rateInfo in
          (* Convert break from minutes to hours for the API *)
          let breakHours := ndiv breakMinutes (of_Z 60) in
          let timesheet :=
            {| Dto.TimeID := None;
               Dto.EmpID := empId;
               Dto.ClientID := Some clientId;
               Dto.ProjectID := Some projectId;
               Dto.CategoryID := Some categoryId;
               Dto.LocationID := Some locationId;
               Dto.BillableID := billableId;
               Dto.DateCreated := date;
               Dto.TimeStart := formatDateTime date startTime;
               Dto.TimeEnd := formatDateTime date endTime;
               Dto.TimeLess := breakHours;
               Dto.TimeTotal := nadd (total h) breakHours;
               Dto.TimeBillable := billable h;
               Dto.SellPrice := sellPrice;
               Dto.SalesTaxPct := Fin (1 # 10);
               Dto.Notes := note |} in
          result <- createTimesheet timesheet ;;
          success (BodyCreated (Details.TimesheetID result)
                               (Details.ClientName result)
                               (Details.ProjectID result)
                               (Details.DateCreated result)
                               (Details.TimeBillable result))
  | _, _, _, _, _, _, _ => missing
  end.

Definition update_timesheet (args : Args) : M ToolResult :=
  match timesheet_id args with
  | None => throw (McpError InvalidParams [Lit "timesheet_id is required"])
  | Some timesheetId =>
      if negb (truthy_num timesheetId) then
        throw (McpError InvalidParams [Lit "timesheet_id is required"])
      else
        (* Fetch existing timesheet *)
        existing <- getTimesheet timesheetId ;;
        (* Apply updates (existing.TimeLess is in minutes from the API) *)
        let clientId :=
          or_undefined truthy_str (client_id args) (Details.ClientID existing) in
        let projectId :=
          or_undefined truthy_str (project_id args) (Details.ProjectID existing) in
        let categoryId :=
          or_undefined truthy_str (category_id args) (Details.CategoryID existing) in
        date <- or_throw (or_method (date args) (Details.DateCreated existing)
                            (fun s => hd EmptyString (split "T" s))) ;;
        startTime <- or_throw (or_method (start_time args)
                                 (Details.StartTime existing) (substring 0 5)) ;;
        endTime <- or_throw (or_method (end_time args)
                               (Details.EndTime existing) (substring 0 5)) ;;
        let breakMinutes :=
          if_defined (break_minutes args) (Details.TimeLess existing) in
        let locationId :=
          or_undefined truthy_str (location_id args) (Details.LocationID existing) in
        let billableId :=
          or_undefined truthy_str (billable_id args) (Details.BillableID existing) in
        let note := if_defined (note args) (Details.Note existing) in
        empId <- getEmployeeId ;;
        let h := calculateHours startTime endTime breakMinutes in
        (* Convert break from minutes to hours for the API *)
        let breakHours := ndiv (to_num breakMinutes) (of_Z 60) in
        let timesheet :=
          {| Dto.TimeID := Some timesheetId;
             Dto.EmpID := empId;
             Dto.ClientID := clientId;
             Dto.ProjectID := projectId;
             Dto.CategoryID := categoryId;
             Dto.LocationID := locationId;
             Dto.BillableID := billableId;
             Dto.DateCreated := date;
             Dto.TimeStart := formatDateTime date startTime;
             Dto.TimeEnd := formatDateTime date endTime;
             Dto.TimeLess := breakHours;
             Dto.TimeTotal := nadd (total h) breakHours;
             Dto.TimeBillable := billable h;
             Dto.SellPrice := Details.SellPrice existing;
             Dto.SalesTaxPct :=
               or_else truthy_num (Details.SalesTaxPct existing) (Fin (1 # 10));
             Dto.Notes := note |} in
        _ <- updateTimesheet timesheet ;;
        success (BodyMessage
                   [Lit "Timesheet "; Val timesheetId; Lit " updated successfully"])
  end.

(** The [switch] of the call-tool handler. *)
Definition dispatch (name : string) (args : Args) : M ToolResult :=
  if name =? "list_clients" then
    let searchText := or_else truthy_str (search_text args) "" in
    clients <- searchClients searchText ;;
    success (BodyJson clients)
  else if name =? "list_projects" then
    match client_id args with
    | Some (String _ _ as clientId) =>
        projects <- getProjectsForClient clientId ;;
        success (BodyJson projects)
    | _ => throw (McpError InvalidParams [Lit "client_id is required"])
    end
  else if name =? "list_categories" then
    categories <- getCategories ;;
    success (BodyJson categories)
  else if name =? "list_locations" then
    locations <- getLocations ;;
    success (BodyJson locations)
  else if name =? "get_timesheet_defaults" then
    match date args with
    | Some (String _ _ as date) =>
        defaults <- getTimesheetDefaults date ;;
        success (BodyJson defaults)
    | _ => throw (McpError InvalidParams [Lit "date is required"])
    end
  else if name =? "list_timesheets" then
    match start_date args, end_date args with
    | Some (String _ _ as startDate), Some (String _ _ as endDate) =>
        timesheets <- listTimesheets startDate endDate ;;
        success (BodyJson timesheets)
    | _, _ =>
        throw (McpError InvalidParams [Lit "start_date and end_date are required"])
    end
  else if name =? "get_timesheet" then
    match timesheet_id args with
    | Some timesheetId =>
        if negb (truthy_num timesheetId) then
          throw (McpError InvalidParams [Lit "timesheet_id is required"])
        else
          timesheet <- getTimesheet timesheetId ;;
          success (BodyDetails timesheet)
    | None => throw (McpError InvalidParams [Lit "timesheet_id is required"])
    end
  else if name =? "create_timesheet" then create_timesheet args
  else if name =? "update_timesheet" then update_timesheet args
  else if name =? "delete_timesheet" then
    match timesheet_id args with
    | Some timesheetId =>
        if negb (truthy_num timesheetId) then
          throw (McpError InvalidParams [Lit "timesheet_id is required"])
        else
          _ <- deleteTimesheet timesheetId ;;
          success (BodyMessage
                     [Lit "Timesheet "; Val timesheetId; Lit " deleted successfully"])
    | None => throw (McpError InvalidParams [Lit "timesheet_id is required"])
    end
  else throw (McpError MethodNotFound [Lit "Unknown tool: "; Lit name]).

(** The call-tool request handler: the [switch] inside [try]/[catch]. *)
Definition callTool (name : string) (args : Args) : M ToolResult :=
  try_catch (dispatch name args)
    (fun error =>
       match error with
       | McpError _ _ => throw error
       | JsError errorMessage =>
           ret {| content := BodyError errorMessage; isError := true |}
       end).

End Server.

(** ** Vocabulary of the specification *)

Module Spec.
Import Js TimeProClient Server.
Local Open Scope string_scope.

(** Wall-clock times as the tool schemas describe them: [HH:MM]. *)
Definition two_digits (n : nat) : string :=
  String (ascii_of_nat (48 + n / 10))
    (String (ascii_of_nat (48 + n mod 10)) EmptyString).

Definition hhmm (h m : nat) : string := two_digits h ++ ":" ++ two_digits m.

(** Minutes since midnight. *)
Definition clock (h m : nat) : Q := inject_Z (Z.of_nat (h * 60 + m)).

Definition wall_clock (h m : nat) : Prop := (h < 24)%nat /\ (m < 60)%nat.

(** The break of a create call, in minutes: an absent break is 0. *)
Definition break_is (args : Args) (b : Q) : Prop :=
  match break_minutes args with
  | Some (Fin q) => (q == b)%Q
  | Some NaN => False
  | None => (b == 0)%Q
  end.

(** An argument is missing when its key is absent or holds the empty
    string. *)
Definition missing (x : option string) : Prop :=
  x = None \/ x = Some "".

Definition provided (x : option string) (s : string) : Prop :=
  x = Some s /\ s <> "".

(** [s] occurs in [t]. *)
Definition occurs_in (s t : string) : Prop :=
  exists pre post, t = pre ++ s ++ post.

(** A message names a value when its text contains the value, whatever
    the number format. *)
Definition names_text (message : text) (s : string) : Prop :=
  forall show, occurs_in s (render show message).

Definition names_number (message : text) (n : num) : Prop :=
  forall show, occurs_in (show n) (render show message).

(** The service answered [r], asked after [history], with a status
    outside 200..299. *)
Definition rejected (srv : Remote) (history : list Request) (r : Request)
           (response : Response) : Prop :=
  srv history r = Some response /\ ok response = false.

(** None of the requests [new], issued in this order after [history],
    was answered with a status outside 200..299. *)
Fixpoint accepted (srv : Remote) (history new : list Request) : Prop :=
  match new with
  | [] => True
  | r :: rest =>
      (forall response, srv history r = Some response -> ok response = true)
      /\ accepted srv (history ++ [r]) rest
  end.

Definition is_rate_lookup (r : Request) : bool :=
  match r with GetClientRate _ _ => true | _ => false end.



(** The merge policy of the identifier fields: a non-empty override wins,
    anything else keeps the existing value. *)
Definition non_empty_wins (override existing merged : option string) : Prop :=
  (forall s, provided override s -> merged = Some s)
  /\ (missing override -> merged = existing).

(** The same policy for a field that is always a string. *)
Definition non_empty_or (override : option string) (fallback chosen : string)
  : Prop :=
  (forall s, provided override s -> chosen = s)
  /\ (missing override -> chosen = fallback).

(** A payload field reproduces a field of the stored record. *)
Definition reproduces (stored : option num) (submitted : num) : Prop :=
  match stored with
  | Some n => same_num submitted n
  | None => False
  end.

(** The policy that C4 states: any present override wins. *)
Definition present_wins (override existing merged : option string) : Prop :=
  (forall s, override = Some s -> merged = Some s)
  /\ (override = None -> merged = existing).

(** The break that a create call works with. *)
Definition create_break (args : Args) : num :=
  or_else truthy_num (break_minutes args) (of_Z 0).

(** The payload that [create_timesheet] builds, once the required
    arguments are known to be there. *)
Definition create_payload (args : Args)
           (clientId projectId categoryId date startTime endTime
            locationId : string)
           (empId : ident) (rateInfo : Json) : Dto.t :=
  let breakMinutes := create_break args in
  let h := calculateHours startTime endTime (Some breakMinutes) in
  let breakHours := ndiv breakMinutes (of_Z 60) in
  {| Dto.TimeID := None;
     Dto.EmpID := empId;
     Dto.ClientID := Some clientId;
     Dto.ProjectID := Some projectId;
     Dto.CategoryID := Some categoryId;
     Dto.LocationID := Some locationId;
     Dto.BillableID := billable_id args;
     Dto.DateCreated := date;
     Dto.TimeStart := formatDateTime date startTime;
     Dto.TimeEnd := formatDateTime date endTime;
     Dto.TimeLess := breakHours;
     Dto.TimeTotal := nadd (total h) breakHours;
     Dto.TimeBillable := billable h;
     Dto.SellPrice := Rate_of rateInfo;
     Dto.SalesTaxPct := Fin (1 # 10);
     Dto.Notes := note args |}.

(** [create_timesheet] past its check of the required arguments. *)
Definition create_checked (args : Args)
           (clientId projectId categoryId date startTime endTime
            locationId : string) : M ToolResult :=
  bind getEmployeeId (fun empId =>
    let h := calculateHours startTime endTime (Some (create_break args)) in
    if nle (billable h) (of_Z 0) then
      throw (McpError InvalidParams
               (invalid_time_range (create_break args) startTime endTime
                                   (total h)))
    else
      bind (getClientRate clientId) (fun rateInfo =>
        bind (createTimesheet
                (create_payload args clientId projectId categoryId date
                                startTime endTime locationId empId rateInfo))
             (fun result =>
                success (BodyCreated (Details.TimesheetID result)
                                     (Details.ClientName result)
                                     (Details.ProjectID result)
                                     (Details.DateCreated result)
                                     (Details.TimeBillable result))))).

(** The seven required arguments of a create call are there. *)
Record required_given (args : Args)
       (clientId projectId categoryId date startTime endTime
        locationId : string) : Prop := {
  given_client : provided (client_id args) clientId;
  given_project : provided (project_id args) projectId;
  given_category : provided (category_id args) categoryId;
  given_date : provided (Server.date args) date;
  given_start : provided (start_time args) startTime;
  given_end : provided (end_time args) endTime;
  given_location : provided (location_id args) locationId
}.

(** One of them is missing. *)
Definition required_missing (args : Args) : Prop :=
  missing (client_id args) \/ missing (project_id args)
  \/ missing (category_id args) \/ missing (Server.date args)
  \/ missing (start_time args) \/ missing (end_time args)
  \/ missing (location_id args).

(** The outcome and the final client of a run. *)
Definition outcome {A} (m : M A) (srv : Remote) (c : Client) : Outcome A :=
  fst (m srv c).

Definition after {A} (m : M A) (srv : Remote) (c : Client) : Client :=
  snd (m srv c).

(** Syntactic equality of numbers, to decide facts by evaluation. *)
Definition num_eqb (a b : num) : bool :=
  match a, b with
  | Fin x, Fin y => (Qnum x =? Qnum y)%Z && (Qden x =? Qden y)%positive
  | NaN, NaN => true
  | _, _ => false
  end.

Definition reads_as (h m : nat) : bool :=
  let hm := map Number (split ":" (hhmm h m)) in
  num_eqb (element hm 0) (of_Z (Z.of_nat h))
  && num_eqb (element hm 1) (of_Z (Z.of_nat m)).

(** The hours between two wall-clock times, as a rational. *)
Definition worked (sh sm eh em : nat) (b : Q) : Q :=
  ((inject_Z (Z.of_nat eh) * inject_Z 60 + inject_Z (Z.of_nat em)
    - (inject_Z (Z.of_nat sh) * inject_Z 60 + inject_Z (Z.of_nat sm)) - b)
   / inject_Z 60)%Q.

(** The last request of [new] was rejected, with [message] as the error
    text, and every request before it went through. *)
Definition failed_last (srv : Remote) (history new : list Request)
           (message : text) : Prop :=
  exists pre r response,
    new = (pre ++ [r])%list /\ accepted srv history pre
    /\ rejected srv (history ++ pre)%list r response
    /\ message = fetch_error response.

(** What a run may leave behind: the requests it added to the log, the
    memo it must not forget, and, for each way of ending, how the service
    answered. *)
Definition verdict {A} (srv : Remote) (history new : list Request)
           (o : Outcome A) : Prop :=
  match o with
  | Thrown (JsError message) =>
      accepted srv history new \/ failed_last srv history new message
  | _ => accepted srv history new
  end.

Definition law (P : Request -> Prop) {A} (m : M A) : Prop :=
  forall srv c o c',
    m srv c = (o, c') ->
    exists new,
      sent c' = (sent c ++ new)%list
      /\ Forall P new
      /\ (forall e, employeeId c = Some e -> employeeId c' = Some e)
      /\ verdict srv (sent c) new o.

Definition not_rate (r : Request) : Prop := is_rate_lookup r = false.

(** The failed tool result that the [catch] block builds. *)
Definition failed_result (message : text) : ToolResult :=
  {| content := BodyError message; isError := true |}.

(** The payload that [update_timesheet] builds from the call, the fetched
    record, its date and times and the resolved identity. *)
Definition update_payload (args : Args) (timesheetId : num)
           (existing : Details.t) (created start finish : string)
           (empId : ident) : Dto.t :=
  let date := or_else truthy_str (date args) (hd EmptyString (split "T" created)) in
  let startTime := or_else truthy_str (start_time args) (substring 0 5 start) in
  let endTime := or_else truthy_str (end_time args) (substring 0 5 finish) in
  let breakMinutes := if_defined (break_minutes args) (Details.TimeLess existing) in
  let h := calculateHours startTime endTime breakMinutes in
  let breakHours := ndiv (to_num breakMinutes) (of_Z 60) in
  {| Dto.TimeID := Some timesheetId;
     Dto.EmpID := empId;
     Dto.ClientID :=
       or_undefined truthy_str (client_id args) (Details.ClientID existing);
     Dto.ProjectID :=
       or_undefined truthy_str (project_id args) (Details.ProjectID existing);
     Dto.CategoryID :=
       or_undefined truthy_str (category_id args) (Details.CategoryID existing);
     Dto.LocationID :=
       or_undefined truthy_str (location_id args) (Details.LocationID existing);
     Dto.BillableID :=
       or_undefined truthy_str (billable_id args) (Details.BillableID existing);
     Dto.DateCreated := date;
     Dto.TimeStart := formatDateTime date startTime;
     Dto.TimeEnd := formatDateTime date endTime;
     Dto.TimeLess := breakHours;
     Dto.TimeTotal := nadd (total h) breakHours;
     Dto.TimeBillable := billable h;
     Dto.SellPrice := Details.SellPrice existing;
     Dto.SalesTaxPct :=
       or_else truthy_num (Details.SalesTaxPct existing) (Fin (1 # 10));
     Dto.Notes := if_defined (note args) (Details.Note existing) |}.

(** An update call that gets as far as the save request: the id is
    given, the record is fetched and has its date and times, the identity
    resolves. *)
Record reaches_save (args : Args) (srv : Remote) (c : Client)
       (timesheetId : num) (existing : Details.t)
       (created start finish : string)
       (empId : ident) (c2 : Client) : Prop := {
  id_given : timesheet_id args = Some timesheetId;
  id_truthy : truthy_num timesheetId = true;
  fetched : exists c1,
      getTimesheet timesheetId srv c = (Returned existing, c1)
      /\ getEmployeeId srv c1 = (Returned empId, c2);
  has_date : Details.DateCreated existing = Some created;
  has_start : Details.StartTime existing = Some start;
  has_end : Details.EndTime existing = Some finish
}.

End Spec.

(** ** A concrete service, for the examples *)

Module Scenario.
Import Js TimeProClient Server Spec.
Local Open Scope string_scope.

Definition answer (j : Json) : option Response :=
  Some {| status := 200; statusText := "OK"; body := "{...}"; parsed := Some j |}.

Definition no_content : option Response :=
  Some {| status := 200; statusText := "OK"; body := ""; parsed := None |}.

Definition unavailable : Response :=
  {| status := 503; statusText := "Service Unavailable";
     body := "maintenance"; parsed := None |}.

(** A stored record: 09:00 to 18:00 with a break of 60 minutes, whose
    billable hours were overridden to 7.5. *)
Definition stored : Details.t :=
  {| Details.TimesheetID := Some (of_Z 42);
     Details.ClientID := Some "SSW";
     Details.ClientName := Some "SSW Pty";
     Details.ProjectID := Some "TP";
     Details.CategoryID := Some "BOT";
     Details.LocationID := Some "Home";
     Details.BillableID := Some "B";
     Details.DateCreated := Some "2024-01-15T00:00:00";
     Details.StartTime := Some "09:00:00";
     Details.EndTime := Some "18:00:00";
     Details.TimeLess := Some (of_Z 60);
     Details.TimeTotal := Some (of_Z 9);
     Details.TimeBillable := Some (Fin (15 # 2));
     Details.SellPrice := Some (of_Z 150);
     Details.SalesTaxPct := Some (Fin (1 # 10));
     Details.Note := Some "standup" |}.

Definition office : Remote :=
  fun _ r =>
    match r with
    | GetEmployeeID => answer (JEmployee (Some (Some "E1")))
    | GetClientRate _ _ => answer (JRate (Some (of_Z 200)))
    | GetEditTimesheetsView _ => answer (JDetails stored)
    | SaveTimesheet false _ => answer (JDetails stored)
    | SaveTimesheet true _ => no_content
    | DeleteTimesheet _ => no_content
    | _ => answer (JOther "[]")
    end.

(** A service that is down. *)
Definition down : Remote := fun _ _ => Some unavailable.

(** A service that answers the identity lookup with a null identity. *)
Definition nameless : Remote :=
  fun history r =>
    match r with
    | GetEmployeeID => answer (JEmployee None)
    | _ => office history r
    end.

Definition create_args (startTime endTime : string) (breakMinutes : Z) : Args :=
  {| search_text := None;
     client_id := Some "SSW"; project_id := Some "TP";
     category_id := Some "BOT"; date := Some "2024-01-15";
     start_date := None; end_date := None;
     start_time := Some startTime; end_time := Some endTime;
     break_minutes := Some (of_Z breakMinutes);
     location_id := Some "Home"; billable_id := None;
     note := Some "work"; timesheet_id := None |}.

(** An update call with the timesheet id only. *)
Definition update_only_id : Args :=
  {| search_text := None; client_id := None; project_id := None;
     category_id := None; date := None; start_date := None;
     end_date := None; start_time := None; end_time := None;
     break_minutes := None; location_id := None; billable_id := None;
     note := None; timesheet_id := Some (of_Z 42) |}.

Definition with_note (a : Args) (n : option string) : Args :=
  {| search_text := search_text a; client_id := client_id a;
     project_id := project_id a; category_id := category_id a;
     date := date a; start_date := start_date a; end_date := end_date a;
     start_time := start_time a; end_time := end_time a;
     break_minutes := break_minutes a; location_id := location_id a;
     billable_id := billable_id a; note := n;
     timesheet_id := timesheet_id a |}.

Definition with_client (a : Args) (x : option string) : Args :=
  {| search_text := search_text a; client_id := x;
     project_id := project_id a; category_id := category_id a;
     date := date a; start_date := start_date a; end_date := end_date a;
     start_time := start_time a; end_time := end_time a;
     break_minutes := break_minutes a; location_id := location_id a;
     billable_id := billable_id a; note := note a;
     timesheet_id := timesheet_id a |}.

Definition with_times (a : Args) (s e : option string) (b : option num) : Args :=
  {| search_text := search_text a; client_id := client_id a;
     project_id := project_id a; category_id := category_id a;
     date := date a; start_date := start_date a; end_date := end_date a;
     start_time := s; end_time := e;
     break_minutes := b; location_id := location_id a;
     billable_id := billable_id a; note := note a;
     timesheet_id := timesheet_id a |}.

(** A record whose stored durations agree with its times and break. *)
Definition consistent : Details.t :=
  {| Details.TimesheetID := Some (of_Z 42);
     Details.ClientID := Some "SSW";
     Details.ClientName := Some "SSW Pty";
     Details.ProjectID := Some "TP";
     Details.CategoryID := Some "BOT";
     Details.LocationID := Some "Home";
     Details.BillableID := Some "B";
     Details.DateCreated := Some "2024-01-15T00:00:00";
     Details.StartTime := Some "09:00:00";
     Details.EndTime := Some "18:00:00";
     Details.TimeLess := Some (of_Z 60);
     Details.TimeTotal := Some (of_Z 9);
     Details.TimeBillable := Some (of_Z 8);
     Details.SellPrice := Some (of_Z 150);
     Details.SalesTaxPct := Some (Fin (1 # 10));
     Details.Note := Some "standup" |}.

Definition archive : Remote :=
  fun history r =>
    match r with
    | GetEditTimesheetsView _ => answer (JDetails consistent)
    | _ => office history r
    end.

End Scenario.

(** ** Vocabulary for the dispatcher as a whole *)

Module Coverage.
Import Js TimeProClient Server Spec.
Local Open Scope string_scope.

(** The names that the [switch] of the call-tool handler knows. *)
Definition tool_names : list string :=
  ["list_clients"; "list_projects"; "list_categories"; "list_locations";
   "get_timesheet_defaults"; "list_timesheets"; "get_timesheet";
   "create_timesheet"; "update_timesheet"; "delete_timesheet"].

(** The writing requests that a tool may send: the save request of a
    new record belongs to create, that of an existing record to update, the
    delete request to delete. *)
Definition may_write (name : string) (r : Request) : bool :=
  match r with
  | SaveTimesheet isEdit _ =>
      if isEdit then name =? "update_timesheet" else name =? "create_timesheet"
  | DeleteTimesheet _ => name =? "delete_timesheet"
  | _ => true
  end.


(** Every [HH:MM] with the hour [h] and two digits of minutes is read as
    the two numbers. *)
Definition reads_all (h : nat) : bool := forallb (reads_as h) (seq 0 100).

(** [HH:MM] has two colon-separated parts. *)
Definition two_parts (h m : nat) : bool :=
  (List.length (split ":" (hhmm h m)) =? 2)%nat.

(** A numeric id that the handlers take as not given. *)
Definition id_missing (x : option num) : Prop := truthy truthy_num x = false.

(** A run that sends at most [n + k] requests, and at most [n] from a
    client that holds its identity, which it then still holds ([k] counts
    the calls of [getEmployeeId], [n] the other requests). *)
Definition frugal (n k : nat) {A} (m : M A) : Prop :=
  forall srv c o c',
    m srv c = (o, c') ->
    exists new,
      sent c' = (sent c ++ new)%list
      /\ (List.length new <= n + k)%nat
      /\ (employeeId c <> None ->
          (List.length new <= n)%nat /\ employeeId c' <> None).

(** A run that never throws a protocol error. *)
Definition quiet {A} (m : M A) : Prop :=
  forall srv c code message c',
    m srv c <> (Thrown (McpError code message), c').

(** A run that throws its protocol errors with the client untouched. *)
Definition early {A} (m : M A) : Prop :=
  forall srv c code message c',
    m srv c = (Thrown (McpError code message), c') -> c' = c.

End Coverage.

(** * Properties *)

(** ** The runtime model on concrete inputs *)

Module Js_examples.
Import Js.
Local Open Scope string_scope.

Example split_hhmm : split ":" "09:30" = ["09"; "30"].
Proof. reflexivity. Qed.

Example split_no_separator : split ":" "0930" = ["0930"].
Proof. reflexivity. Qed.

Example split_trailing : split ":" "9:" = ["9"; ""].
Proof. reflexivity. Qed.

Example Number_leading_zero : Number "09" = Fin (9 # 1).
Proof. reflexivity. Qed.

Example Number_empty : Number "" = Fin 0.
Proof. reflexivity. Qed.

Example Number_fraction : Number " -7.50 " = Fin (- 15 # 2).
Proof. reflexivity. Qed.

Example Number_letters : Number "ab" = NaN.
Proof. reflexivity. Qed.

Example substring_seconds : substring 0 5 "09:00:00" = "09:00".
Proof. reflexivity. Qed.
End Js_examples.

(** ** Numbers and clock times *)

Module Hours_facts.
Import Js TimeProClient Server Spec.
Local Open Scope string_scope.

Lemma same_num_refl n : same_num n n.
Proof. destruct n; simpl; [reflexivity | exact I]. Qed.

Lemma same_num_sym a b : same_num a b -> same_num b a.
Proof. destruct a, b; simpl; auto. intros H; symmetry; exact H. Qed.

Lemma same_num_trans a b c : same_num a b -> same_num b c -> same_num a c.
Proof.
  destruct a, b, c; simpl; auto; try contradiction.
  intros H1 H2; rewrite H1; exact H2.
Qed.

Lemma num_eqb_eq a b : num_eqb a b = true -> a = b.
Proof.
  destruct a as [[n d]|], b as [[n' d']|]; simpl; try discriminate; auto.
  intros H. apply andb_prop in H. destruct H as [Hn Hd].
  apply Z.eqb_eq in Hn. apply Pos.eqb_eq in Hd. subst. reflexivity.
Qed.

Lemma below_forallb (P : nat -> bool) (k n : nat) :
  forallb P (seq 0 k) = true -> (n < k)%nat -> P n = true.
Proof.
  intros H Hn. rewrite forallb_forall in H. apply H.
  apply in_seq. lia.
Qed.

Lemma wall_clock_reads_as h m : wall_clock h m -> reads_as h m = true.
Proof.
  intros [Hh Hm].
  assert (A : forallb (fun h => forallb (reads_as h) (seq 0 60)) (seq 0 24) = true)
    by (vm_compute; reflexivity).
  apply (below_forallb (reads_as h) (k := 60)); [| exact Hm].
  apply (below_forallb (fun h => forallb (reads_as h) (seq 0 60)) (k := 24));
    assumption.
Qed.

Lemma hhmm_hours h m :
  wall_clock h m ->
  element (map Number (split ":" (hhmm h m))) 0 = of_Z (Z.of_nat h).
Proof.
  intros H. apply wall_clock_reads_as in H. unfold reads_as in H.
  apply andb_prop in H. apply num_eqb_eq. apply H.
Qed.

Lemma hhmm_minutes h m :
  wall_clock h m ->
  element (map Number (split ":" (hhmm h m))) 1 = of_Z (Z.of_nat m).
Proof.
  intros H. apply wall_clock_reads_as in H. unfold reads_as in H.
  apply andb_prop in H. apply num_eqb_eq. apply H.
Qed.

Lemma hhmm_not_empty h m : truthy_str (hhmm h m) = true.
Proof. reflexivity. Qed.

Lemma substring_hhmm h m rest : substring 0 5 (hhmm h m ++ rest) = hhmm h m.
Proof. destruct rest; reflexivity. Qed.

Lemma clock_minutes h m :
  (inject_Z (Z.of_nat h) * inject_Z 60 + inject_Z (Z.of_nat m) == clock h m)%Q.
Proof.
  unfold clock. rewrite <- inject_Z_mult, <- inject_Z_plus.
  replace (Z.of_nat h * 60 + Z.of_nat m)%Z with (Z.of_nat (h * 60 + m)) by lia.
  reflexivity.
Qed.

Lemma worked_clock sh sm eh em b :
  (worked sh sm eh em b == (clock eh em - clock sh sm - b) / 60)%Q.
Proof.
  unfold worked. rewrite !clock_minutes. reflexivity.
Qed.

Lemma calculateHours_wall_clock sh sm eh em b :
  wall_clock sh sm -> wall_clock eh em ->
  calculateHours (hhmm sh sm) (hhmm eh em) (Some (Fin b))
  = {| total := Fin (worked sh sm eh em b);
       billable := Fin (worked sh sm eh em b) |}.
Proof.
  intros Hs He. unfold calculateHours.
  rewrite (hhmm_hours Hs), (hhmm_minutes Hs),
          (hhmm_hours He), (hhmm_minutes He).
  reflexivity.
Qed.

Lemma calculateHours_default s e :
  calculateHours s e None = calculateHours s e (Some (of_Z 0)).
Proof. reflexivity. Qed.

(** C10.  [calculateHours] returns its one quotient twice: for all
    arguments [total] and [billable] are the same value; on wall-clock
    times [HH:MM] and a finite break that value is
    (end - start - break) / 60, and as soon as the break is not zero it
    differs from the gross elapsed hours (end - start) / 60, which the
    helper therefore never returns. *)
Theorem calculateHours_total_equals_billable :
  forall (startTime endTime : string) (breakMinutes : option num)
         (sh sm eh em : nat) (b : Q),
    wall_clock sh sm -> wall_clock eh em ->
    total (calculateHours startTime endTime breakMinutes)
    = billable (calculateHours startTime endTime breakMinutes)
    /\ same_num (billable (calculateHours (hhmm sh sm) (hhmm eh em) (Some (Fin b))))
                (Fin ((clock eh em - clock sh sm - b) / 60))
    /\ same_num (total (calculateHours (hhmm sh sm) (hhmm eh em) (Some (Fin b))))
                (Fin ((clock eh em - clock sh sm - b) / 60))
    /\ (~ (b == 0)%Q ->
        ~ same_num (total (calculateHours (hhmm sh sm) (hhmm eh em) (Some (Fin b))))
                   (Fin ((clock eh em - clock sh sm) / 60))).
Proof.
  intros startTime endTime breakMinutes sh sm eh em b Hs He.
  split; [reflexivity |].
  rewrite (calculateHours_wall_clock b Hs He). simpl.
  repeat split; try apply worked_clock.
  intros Hb H. rewrite worked_clock in H. apply Hb.
  set (e := clock eh em) in *. set (s := clock sh sm) in *.
  clearbody e s. apply Qmult_inj_r in H; [lra | discriminate].
Qed.

Lemma calculateHours_total_equals_billable_witness :
  wall_clock 9 0 /\ wall_clock 18 0
  /\ same_num (billable (calculateHours "09:00" "18:00" (Some (of_Z 60)))) (of_Z 8)
  /\ ~ same_num (total (calculateHours "09:00" "18:00" (Some (of_Z 60)))) (of_Z 9).
Proof.
  assert (Hs : wall_clock 9 0) by (unfold wall_clock; lia).
  assert (He : wall_clock 18 0) by (unfold wall_clock; lia).
  destruct (@calculateHours_total_equals_billable
              "09:00" "18:00" None 9 0 18 0 (inject_Z 60) Hs He)
    as [_ [Hb [_ Hg]]].
  split; [exact Hs |]. split; [exact He |]. split.
  - eapply same_num_trans; [exact Hb |]. vm_compute. reflexivity.
  - intros H. apply Hg.
    + vm_compute. discriminate.
    + eapply same_num_trans; [exact H |]. vm_compute. reflexivity.
Defined.

End Hours_facts.

(** ** The transport: one attempt per request, the identity memo *)

Module Transport_facts.
Import Js TimeProClient Server Spec.
Local Open Scope string_scope.
Local Open Scope js_scope.

(** *** Occurrences in rendered messages *)

Lemma append_assoc (a b c : string) : (a ++ b) ++ c = a ++ (b ++ c).
Proof. induction a as [| x a IH]; simpl; [reflexivity | now rewrite IH]. Qed.

Lemma occurs_in_refl s : occurs_in s s.
Proof.
  exists "", "". simpl. induction s as [| x s IH]; simpl; [reflexivity |].
  now rewrite <- IH.
Qed.

Lemma occurs_in_empty t : occurs_in "" t.
Proof. exists "", t. reflexivity. Qed.

Lemma occurs_in_left s t u : occurs_in s t -> occurs_in s (t ++ u).
Proof.
  intros [pre [post ->]]. exists pre, (post ++ u).
  now rewrite !append_assoc.
Qed.

Lemma occurs_in_right s t u : occurs_in s t -> occurs_in s (u ++ t).
Proof.
  intros [pre [post ->]]. exists (u ++ pre), post.
  now rewrite !append_assoc.
Qed.

Lemma names_text_here s rest : names_text (Lit s :: rest) s.
Proof. intros show. simpl. apply occurs_in_left, occurs_in_refl. Qed.

Lemma names_number_here n rest : names_number (Val n :: rest) n.
Proof. intros show. simpl. apply occurs_in_left, occurs_in_refl. Qed.

Lemma names_text_later p s rest : names_text rest s -> names_text (p :: rest) s.
Proof. intros H show. destruct p; simpl; apply occurs_in_right, H. Qed.

Lemma names_number_later p n rest :
  names_number rest n -> names_number (p :: rest) n.
Proof. intros H show. destruct p; simpl; apply occurs_in_right, H. Qed.

Lemma fetch_error_names response :
  names_number (fetch_error response) (of_Z (status response))
  /\ names_text (fetch_error response) (body response).
Proof.
  unfold fetch_error. split.
  - apply names_number_later, names_number_here.
  - destruct (body response) as [| x b] eqn:E; simpl.
    + intros show. apply occurs_in_empty.
    + do 3 apply names_text_later. apply names_text_here.
Qed.

(** *** The request log *)

Local Open Scope list_scope.

Lemma accepted_app srv h n1 n2 :
  accepted srv h (n1 ++ n2) <-> accepted srv h n1 /\ accepted srv (h ++ n1) n2.
Proof.
  revert h. induction n1 as [| r n1 IH]; intros h; simpl.
  - rewrite app_nil_r. tauto.
  - rewrite IH, <- app_assoc. simpl. tauto.
Qed.

Lemma accepted_not_rejected srv h pre r post response :
  accepted srv h (pre ++ r :: post) -> rejected srv (h ++ pre) r response -> False.
Proof.
  intros H [Hr Hok]. apply accepted_app in H. destruct H as [_ [H _]].
  specialize (H _ Hr). congruence.
Qed.

Lemma split_at_last {A} (pre post pre' : list A) (r r' : A) :
  pre ++ r :: post = pre' ++ [r'] ->
  (pre = pre' /\ r = r' /\ post = []) \/ (exists mid, pre' = pre ++ r :: mid).
Proof.
  revert pre'. induction pre as [| x pre IH]; intros pre' H.
  - destruct pre' as [| y pre']; simpl in *.
    + inversion H. left. auto.
    + inversion H. right. eexists. reflexivity.
  - destruct pre' as [| y pre']; simpl in *.
    + inversion H as [[Hx Hp]]. destruct pre; discriminate.
    + inversion H as [[Hx Hp]]. destruct (IH _ Hp) as [[-> [-> ->]] | [mid ->]].
      * left. auto.
      * right. exists mid. reflexivity.
Qed.

Lemma failed_last_unique srv h new message pre r post response :
  failed_last srv h new message ->
  new = pre ++ r :: post ->
  rejected srv (h ++ pre) r response ->
  post = [] /\ message = fetch_error response.
Proof.
  intros [pre' [r' [response' [Hn [Ha [[Hr' Hok'] Hm]]]]]] E Hr.
  rewrite Hn in E. symmetry in E.
  destruct (split_at_last _ _ _ _ _ E) as [[-> [-> ->]] | [mid ->]].
  - split; [reflexivity |]. destruct Hr as [Hr _].
    rewrite Hr in Hr'. inversion Hr'. subst. reflexivity.
  - exfalso. eapply accepted_not_rejected; eassumption.
Qed.

Section Laws.
Variable P : Request -> Prop.

Lemma law_ret {A} (a : A) : law P (ret a).
Proof.
  intros srv c o c' H. inversion H; subst. exists [].
  rewrite app_nil_r. simpl. auto.
Qed.

Lemma law_throw_mcp {A} code message : law P (@throw A (McpError code message)).
Proof.
  intros srv c o c' H. inversion H; subst. exists [].
  rewrite app_nil_r. simpl. auto.
Qed.

Lemma law_type_error {A} : law P (@type_error A).
Proof.
  intros srv c o c' H. inversion H; subst. exists [].
  rewrite app_nil_r. simpl. auto.
Qed.

Lemma law_or_throw {A} (x : option A) : law P (or_throw x).
Proof. destruct x; [apply law_ret | apply law_type_error]. Qed.

Lemma law_fetch endpoint : P endpoint -> law P (fetch endpoint).
Proof.
  intros HP srv c o c' H. exists [endpoint]. unfold fetch in H.
  assert (Hacc : forall response, srv (sent c) endpoint = Some response ->
                 ok response = true -> accepted srv (sent c) [endpoint]).
  { intros response Hr Hok. simpl. split; [| exact I].
    intros response' Hr'. congruence. }
  destruct (srv (sent c) endpoint) as [response |] eqn:Hr.
  - destruct (ok response) eqn:Hok; simpl in H.
    + destruct (truthy_str (body response)); simpl in H;
        [destruct (parsed response) |];
        inversion H; subst; simpl; repeat split; auto;
        try (left; eapply Hacc; eauto; fail); eapply Hacc; eauto.
    + inversion H; subst; simpl. repeat split; auto.
      right. exists [], endpoint, response. simpl. rewrite app_nil_r.
      repeat split; auto.
  - inversion H; subst; simpl. repeat split; auto.
    left. split; [intros response; rewrite Hr; discriminate | exact I].
Qed.

Lemma law_bind {A B} (m : M A) (k : A -> M B) :
  law P m -> (forall a, law P (k a)) -> law P (bind m k).
Proof.
  intros Hm Hk srv c o c' H. unfold bind in H.
  destruct (m srv c) as [[a | e] c1] eqn:E.
  - destruct (Hm _ _ _ _ E) as [n1 [S1 [F1 [I1 V1]]]].
    destruct (Hk a _ _ _ _ H) as [n2 [S2 [F2 [I2 V2]]]].
    exists (n1 ++ n2). rewrite S2, S1, app_assoc.
    split; [reflexivity |]. split; [apply Forall_app; auto |].
    split; [auto |].
    simpl in V1. rewrite S1 in V2.
    destruct o as [b | [code msg | msg]]; simpl in *;
      try (apply accepted_app; auto; fail).
    destruct V2 as [V2 | [pre [r [response [-> [Ha [Hr ->]]]]]]].
    + left. apply accepted_app; auto.
    + right. exists (n1 ++ pre), r, response.
      rewrite <- !app_assoc. repeat split; auto.
      * apply accepted_app; auto.
      * rewrite <- app_assoc in Hr. apply Hr.
      * rewrite <- app_assoc in Hr. apply Hr.
  - inversion H; subst. apply (Hm _ _ _ _ E).
Qed.

Lemma law_getEmployeeId : P GetEmployeeID -> law P getEmployeeId.
Proof.
  intros HP srv c o c' H. unfold getEmployeeId in H.
  destruct (employeeId c) as [e |] eqn:Hc.
  - inversion H; subst. exists []. rewrite app_nil_r. simpl.
    repeat split; auto. intros e0 E0. congruence.
  - unfold bind in H.
    destruct (fetch GetEmployeeID srv c) as [[j | e] c1] eqn:E.
    + destruct (law_fetch HP _ _ E) as [new [S1 [F1 [_ V1]]]].
      simpl in H. inversion H; subst. exists new. simpl.
      repeat split; auto. discriminate.
    + destruct (law_fetch HP _ _ E) as [new [S1 [F1 [_ V1]]]].
      inversion H; subst. exists new. repeat split; auto. discriminate.
Qed.

End Laws.

Lemma law_weaken (P Q : Request -> Prop) {A} (m : M A) :
  (forall r, P r -> Q r) -> law P m -> law Q m.
Proof.
  intros HPQ Hm srv c o c' H.
  destruct (Hm _ _ _ _ H) as [new [S1 [F1 [I1 V1]]]].
  exists new. repeat split; auto.
  eapply Forall_impl; [| exact F1]. exact HPQ.
Qed.

Ltac lawful :=
  repeat first
    [ apply law_ret | apply law_throw_mcp | apply law_type_error
    | apply law_or_throw
    | apply law_getEmployeeId; solve [auto | reflexivity]
    | apply law_fetch; solve [auto | reflexivity]
    | apply law_bind; [| intros ?]
    | match goal with
      | |- law _ (match ?x with _ => _ end) => destruct x
      | |- law _ (if ?b then _ else _) => destruct b
      end ].

Lemma law_create_timesheet args : law (fun _ => True) (create_timesheet args).
Proof.
  unfold create_timesheet, getClientRate, createTimesheet, success.
  lawful.
Qed.

Lemma law_update_timesheet args : law not_rate (update_timesheet args).
Proof.
  unfold update_timesheet, getTimesheet, updateTimesheet, success.
  lawful.
Qed.

Lemma law_dispatch_other name args :
  name <> "create_timesheet" -> law not_rate (dispatch name args).
Proof.
  intros Hname. unfold dispatch.
  destruct (name =? "create_timesheet") eqn:E;
    [apply String.eqb_eq in E; contradiction |].
  unfold searchClients, getProjectsForClient, getCategories, getLocations,
    getTimesheetDefaults, listTimesheets, getTimesheet, deleteTimesheet,
    success.
  lawful; apply law_update_timesheet.
Qed.

Lemma law_dispatch name args : law (fun _ => True) (dispatch name args).
Proof.
  destruct (String.eqb_spec name "create_timesheet") as [-> | Hname].
  - apply law_create_timesheet.
  - eapply law_weaken; [| apply law_dispatch_other; exact Hname]. auto.
Qed.

Lemma callTool_run (P : Request -> Prop) name args srv c o c' :
  law P (dispatch name args) ->
  callTool name args srv c = (o, c') ->
  exists new,
    sent c' = sent c ++ new
    /\ Forall P new
    /\ (forall e, employeeId c = Some e -> employeeId c' = Some e)
    /\ match o with
       | Returned result =>
           accepted srv (sent c) new
           \/ exists message,
               failed_last srv (sent c) new message
               /\ result = failed_result message
       | Thrown (McpError _ _) => accepted srv (sent c) new
       | Thrown (JsError _) => False
       end.
Proof.
  intros Hlaw H. unfold callTool, try_catch in H.
  destruct (dispatch name args srv c) as [[result | [code msg | msg]] c1] eqn:E;
    destruct (Hlaw _ _ _ _ E) as [new [S1 [F1 [I1 V1]]]];
    inversion H; subst; exists new; repeat split; auto.
  simpl in V1. destruct V1 as [V1 | V1]; [left; exact V1 |].
  right. exists msg. split; [exact V1 | reflexivity].
Qed.

Lemma fetch_sent endpoint srv c :
  sent (after (fetch endpoint) srv c) = sent c ++ [endpoint].
Proof.
  unfold after, fetch.
  destruct (srv (sent c) endpoint) as [response |]; [| reflexivity].
  destruct (ok response); simpl; [| reflexivity].
  destruct (truthy_str (body response)); simpl; [| reflexivity].
  destruct (parsed response); reflexivity.
Qed.

Lemma fetch_rejected endpoint srv c response :
  rejected srv (sent c) endpoint response ->
  outcome (fetch endpoint) srv c = Thrown (JsError (fetch_error response)).
Proof.
  intros [Hr Hok]. unfold outcome, fetch. rewrite Hr, Hok. reflexivity.
Qed.

(** C8.  Whatever the tool and its arguments: when one of the requests of
    a call is answered with a status outside 200..299, that request is the
    last one of the call (nothing is sent after it, so it is not tried
    again), the handler returns (it does not throw) the failed result
    whose message is the transport error of that response, and this
    message contains the status code and the body text.  [fetch] itself
    makes one attempt and throws that error.  A 2xx response with an empty
    body makes [fetch] return the empty object. *)
Theorem non_2xx_is_a_failed_result :
  (forall name args srv c pre r post response,
      sent (after (callTool name args) srv c) = sent c ++ pre ++ r :: post ->
      rejected srv (sent c ++ pre) r response ->
      post = []
      /\ outcome (callTool name args) srv c
         = Returned (failed_result (fetch_error response))
      /\ names_number (fetch_error response) (of_Z (status response))
      /\ names_text (fetch_error response) (body response))
  /\ (forall endpoint srv c response,
        rejected srv (sent c) endpoint response ->
        outcome (fetch endpoint) srv c = Thrown (JsError (fetch_error response))
        /\ sent (after (fetch endpoint) srv c) = sent c ++ [endpoint])
  /\ (forall endpoint srv c response,
        srv (sent c) endpoint = Some response ->
        ok response = true -> body response = "" ->
        outcome (fetch endpoint) srv c = Returned JEmpty).
Proof.
  split; [| split].
  - intros name args srv c pre r post response Hsent Hrej.
    unfold after, outcome in *.
    destruct (callTool name args srv c) as [o c'] eqn:E. simpl in *.
    destruct (callTool_run _ _ _ _ (law_dispatch name args) E)
      as [new [S1 [_ [_ V]]]].
    rewrite S1 in Hsent. apply app_inv_head in Hsent. subst new.
    destruct (fetch_error_names response) as [Hn Ht].
    destruct o as [result | [code msg | msg]].
    + destruct V as [V | [message [V ->]]].
      * exfalso. eapply accepted_not_rejected; eassumption.
      * destruct (@failed_last_unique _ _ _ _ _ _ _ _ V eq_refl Hrej) as [-> ->].
        auto.
    + exfalso. eapply accepted_not_rejected; eassumption.
    + contradiction.
  - intros endpoint srv c response Hrej. split.
    + apply fetch_rejected. exact Hrej.
    + apply fetch_sent.
  - intros endpoint srv c response Hr Hok Hb.
    unfold outcome, fetch. rewrite Hr, Hok, Hb. reflexivity.
Qed.

Lemma non_2xx_is_a_failed_result_witness :
  outcome (callTool "create_timesheet"
                    (Scenario.create_args "09:00" "18:00" 60))
          Scenario.down fresh
  = Returned (failed_result
                [Lit "TimePRO API error ("; Val (of_Z 503); Lit "): ";
                 Lit "maintenance"])
  /\ outcome (fetch (DeleteTimesheet (of_Z 42))) Scenario.office fresh
     = Returned JEmpty.
Proof.
  destruct non_2xx_is_a_failed_result as [Htool [_ Hempty]].
  split.
  - apply (Htool "create_timesheet" (Scenario.create_args "09:00" "18:00" 60)
                 Scenario.down fresh [] GetEmployeeID [] Scenario.unavailable).
    + reflexivity.
    + split; reflexivity.
  - apply (Hempty (DeleteTimesheet (of_Z 42)) Scenario.office fresh
                  {| status := 200; statusText := "OK"; body := "";
                     parsed := None |});
      reflexivity.
Defined.

(** *** The identity memo *)

Lemma getEmployeeId_cached srv c v :
  employeeId c = Some v -> getEmployeeId srv c = (Returned (Some v), c).
Proof. intros H. unfold getEmployeeId. rewrite H. reflexivity. Qed.

Lemma getEmployeeId_first srv c :
  employeeId c = None ->
  sent (after getEmployeeId srv c) = sent c ++ [GetEmployeeID].
Proof.
  intros H. unfold after, getEmployeeId, bind. rewrite H.
  pose proof (fetch_sent GetEmployeeID srv c) as S. unfold after in S.
  destruct (fetch GetEmployeeID srv c) as [[j | e] c1]; simpl in *; exact S.
Qed.

Lemma getEmployeeId_returned srv c e c1 :
  getEmployeeId srv c = (Returned e, c1) ->
  employeeId c1 = e
  /\ (sent c1 = sent c \/ sent c1 = sent c ++ [GetEmployeeID]).
Proof.
  intros H. destruct (employeeId c) as [e0 |] eqn:Hc.
  - rewrite (getEmployeeId_cached srv c Hc) in H. inversion H; subst. auto.
  - pose proof (getEmployeeId_first srv c Hc) as S. unfold after in S.
    rewrite H in S. simpl in S. split; [| right; exact S].
    unfold getEmployeeId, bind in H. rewrite Hc in H.
    destruct (fetch GetEmployeeID srv c) as [[j | x] c0]; simpl in H;
      inversion H; subst; reflexivity.
Qed.






End Transport_facts.

(** ** The update merge *)

Module Update_facts.
Import Js TimeProClient Server Spec Hours_facts Transport_facts.
Local Open Scope string_scope.
Local Open Scope js_scope.

Lemma bind_returned {A B} (m : M A) (k : A -> M B) srv c a c1 :
  m srv c = (Returned a, c1) -> bind m k srv c = k a srv c1.
Proof. intros H. unfold bind. rewrite H. reflexivity. Qed.

Lemma or_method_defined x s m :
  or_method x (Some s) m = Some (or_else truthy_str x (m s)).
Proof. destruct x as [[| a x] |]; reflexivity. Qed.

Lemma updateTimesheet_sent dto (b : Body) srv c :
  sent (after (_ <- updateTimesheet dto ;; success b) srv c)
  = (sent c ++ [SaveTimesheet true dto])%list.
Proof.
  pose proof (fetch_sent (SaveTimesheet true dto) srv c) as S.
  unfold after, updateTimesheet, bind in *.
  destruct (fetch (SaveTimesheet true dto) srv c) as [[j | e] c1];
    simpl in *; exact S.
Qed.

Lemma update_timesheet_submits args srv c id existing created start finish
      empId c2 :
  reaches_save args srv c id existing created start finish empId c2 ->
  sent (after (update_timesheet args) srv c)
  = (sent c2 ++ [SaveTimesheet true
                   (update_payload args id existing created start finish empId)])%list.
Proof.
  intros [Hid Ht [c1 [Hf He]] Hd Hs Hf'].
  unfold after, update_timesheet. rewrite Hid, Ht.
  change (negb true) with false. cbv iota.
  rewrite (@bind_returned _ _ _ _ _ _ _ _ Hf).
  rewrite Hd, Hs, Hf', !or_method_defined. simpl or_throw.
  unfold bind at 1, ret at 1. unfold bind at 1, ret at 1.
  unfold bind at 1, ret at 1.
  rewrite (@bind_returned _ _ _ _ _ _ _ _ He).
  apply (updateTimesheet_sent _ _ srv c2).
Qed.

Lemma or_undefined_policy x y : non_empty_wins x y (or_undefined truthy_str x y).
Proof.
  split.
  - intros s [-> Hs]. destruct s; [contradiction | reflexivity].
  - intros [-> | ->]; reflexivity.
Qed.

Lemma or_else_policy x y : non_empty_or x y (or_else truthy_str x y).
Proof.
  split.
  - intros s [-> Hs]. destruct s; [contradiction | reflexivity].
  - intros [-> | ->]; reflexivity.
Qed.

Lemma stored_reaches_save args :
  timesheet_id args = Some (of_Z 42) ->
  reaches_save args Scenario.office fresh (of_Z 42) Scenario.stored
               "2024-01-15T00:00:00" "09:00:00" "18:00:00" (Some (Some "E1"))
               {| employeeId := Some (Some "E1");
                  sent := [GetEditTimesheetsView (of_Z 42); GetEmployeeID] |}.
Proof.
  intros H. split; try reflexivity; [exact H |].
  eexists. split; reflexivity.
Defined.

(** C3.  In the payload of an update the note is the override whenever
    the [note] key is present, the empty string included, and the note of
    the stored record when the key is absent. *)
Theorem update_note_follows_presence :
  forall args srv c id existing created start finish empId c2,
    reaches_save args srv c id existing created start finish empId c2 ->
    exists dto,
      sent (after (update_timesheet args) srv c)
      = (sent c2 ++ [SaveTimesheet true dto])%list
      /\ (note args = Some "" -> Dto.Notes dto = Some "")
      /\ (forall n, note args = Some n -> Dto.Notes dto = Some n)
      /\ (note args = None -> Dto.Notes dto = Details.Note existing).
Proof.
  intros args srv c id existing created start finish empId c2 H.
  eexists. split; [apply (update_timesheet_submits H) |].
  simpl. repeat split.
  - intros ->. reflexivity.
  - intros n ->. reflexivity.
  - intros ->. reflexivity.
Qed.

Lemma update_note_follows_presence_witness :
  (exists dto,
      sent (after (update_timesheet
                     (Scenario.with_note Scenario.update_only_id (Some "")))
                  Scenario.office fresh)
      = [GetEditTimesheetsView (of_Z 42); GetEmployeeID; SaveTimesheet true dto]
      /\ Dto.Notes dto = Some "")
  /\ (exists dto,
        sent (after (update_timesheet Scenario.update_only_id)
                    Scenario.office fresh)
        = [GetEditTimesheetsView (of_Z 42); GetEmployeeID; SaveTimesheet true dto]
        /\ Dto.Notes dto = Some "standup").
Proof.
  split.
  - destruct (update_note_follows_presence
                (@stored_reaches_save
                   (Scenario.with_note Scenario.update_only_id (Some ""))
                   eq_refl))
      as [dto [Hs [He _]]].
    exists dto. split; [exact Hs | apply He; reflexivity].
  - destruct (update_note_follows_presence
                (@stored_reaches_save Scenario.update_only_id eq_refl))
      as [dto [Hs [_ [_ Hn]]]].
    exists dto. split; [exact Hs | apply Hn; reflexivity].
Defined.

(** C4, as the code has it.  For the client, project, category, location
    and billable ids a non-empty override wins, and an absent or empty
    one keeps the stored value as it is.  The date, start time and end
    time follow the same test, and what they keep is a part of the stored
    value: the date up to its first [T], the first five characters of the
    time; the payload carries each time joined to the date by
    [formatDateTime]. *)
Theorem update_keeps_fields_without_non_empty_override :
  forall args srv c id existing created start finish empId c2,
    reaches_save args srv c id existing created start finish empId c2 ->
    exists dto startTime endTime,
      sent (after (update_timesheet args) srv c)
      = (sent c2 ++ [SaveTimesheet true dto])%list
      /\ non_empty_wins (client_id args) (Details.ClientID existing)
                        (Dto.ClientID dto)
      /\ non_empty_wins (project_id args) (Details.ProjectID existing)
                        (Dto.ProjectID dto)
      /\ non_empty_wins (category_id args) (Details.CategoryID existing)
                        (Dto.CategoryID dto)
      /\ non_empty_wins (location_id args) (Details.LocationID existing)
                        (Dto.LocationID dto)
      /\ non_empty_wins (billable_id args) (Details.BillableID existing)
                        (Dto.BillableID dto)
      /\ non_empty_or (date args) (hd EmptyString (split "T" created))
                      (Dto.DateCreated dto)
      /\ non_empty_or (start_time args) (substring 0 5 start) startTime
      /\ non_empty_or (end_time args) (substring 0 5 finish) endTime
      /\ Dto.TimeStart dto = formatDateTime (Dto.DateCreated dto) startTime
      /\ Dto.TimeEnd dto = formatDateTime (Dto.DateCreated dto) endTime.
Proof.
  intros args srv c id existing created start finish empId c2 H.
  eexists. eexists. eexists.
  split; [apply (update_timesheet_submits H) |].
  cbv beta delta [update_payload Dto.ClientID Dto.ProjectID Dto.CategoryID
                  Dto.LocationID Dto.BillableID Dto.DateCreated
                  Dto.TimeStart Dto.TimeEnd] iota zeta.
  repeat (split; [apply or_undefined_policy |]).
  repeat (split; [apply or_else_policy |]).
  split; reflexivity.
Qed.

Lemma update_keeps_fields_without_non_empty_override_witness :
  exists dto,
    sent (after (update_timesheet
                   (Scenario.with_client Scenario.update_only_id (Some "LR8R0L")))
                Scenario.office fresh)
    = [GetEditTimesheetsView (of_Z 42); GetEmployeeID; SaveTimesheet true dto]
    /\ Dto.ClientID dto = Some "LR8R0L"
    /\ Dto.ProjectID dto = Some "TP"
    /\ Dto.DateCreated dto = "2024-01-15".
Proof.
  destruct (update_keeps_fields_without_non_empty_override
              (@stored_reaches_save
                 (Scenario.with_client Scenario.update_only_id (Some "LR8R0L"))
                 eq_refl))
    as [dto [st [et [Hs [Hc [Hp [_ [_ [_ [Hd _]]]]]]]]]].
  exists dto. split; [exact Hs |]. split; [| split].
  - apply Hc. split; [reflexivity | discriminate].
  - apply Hp. left. reflexivity.
  - apply Hd. left. reflexivity.
Defined.

(** C4 as stated fails: an override equal to the empty string does not
    win, and the stored date is not carried forward as it is. *)
Lemma empty_override_does_not_win :
  exists dto,
    sent (after (update_timesheet
                   (Scenario.with_client Scenario.update_only_id (Some "")))
                Scenario.office fresh)
    = [GetEditTimesheetsView (of_Z 42); GetEmployeeID; SaveTimesheet true dto]
    /\ Dto.ClientID dto = Some "SSW"
    /\ ~ present_wins (Some "") (Details.ClientID Scenario.stored)
                      (Dto.ClientID dto)
    /\ Details.DateCreated Scenario.stored = Some "2024-01-15T00:00:00"
    /\ Dto.DateCreated dto = "2024-01-15".
Proof.
  eexists. split; [vm_compute; reflexivity |].
  split; [reflexivity |]. split; [| split; reflexivity].
  intros [H _]. specialize (H "" eq_refl). discriminate H.
Qed.

Lemma ndiv_60 q : ndiv (Fin q) (of_Z 60) = Fin (q / inject_Z 60).
Proof. reflexivity. Qed.

(** C5, as the code has it.  When an update overrides neither the start
    time, the end time nor the break (an empty override set in
    particular), and the stored record is consistent, that is, its times
    read [HH:MM...], its billable hours are (end - start - break) / 60
    and its total hours are the billable hours plus break / 60, then the
    payload carries the stored billable and total hours, and the stored
    break converted from minutes to hours. *)
Theorem update_reproduces_consistent_durations :
  forall args srv c id existing created empId c2
         (sh sm eh em : nat) (seconds1 seconds2 : string) (b tb tt : Q),
    reaches_save args srv c id existing created
                 (hhmm sh sm ++ seconds1) (hhmm eh em ++ seconds2) empId c2 ->
    start_time args = None -> end_time args = None ->
    break_minutes args = None ->
    wall_clock sh sm -> wall_clock eh em ->
    Details.TimeLess existing = Some (Fin b) ->
    Details.TimeBillable existing = Some (Fin tb) ->
    Details.TimeTotal existing = Some (Fin tt) ->
    (tb == (clock eh em - clock sh sm - b) / 60)%Q ->
    (tt == tb + b / 60)%Q ->
    exists dto,
      sent (after (update_timesheet args) srv c)
      = (sent c2 ++ [SaveTimesheet true dto])%list
      /\ reproduces (Details.TimeBillable existing) (Dto.TimeBillable dto)
      /\ reproduces (Details.TimeTotal existing) (Dto.TimeTotal dto)
      /\ same_num (Dto.TimeLess dto) (Fin (b / 60)).
Proof.
  intros args srv c id existing created empId c2 sh sm eh em s1 s2 b tb tt
         H Hst Het Hbr Hs He Hl Hb Ht Etb Ett.
  eexists. split; [apply (update_timesheet_submits H) |].
  rewrite Hb, Ht.
  cbv beta delta [update_payload Dto.TimeBillable Dto.TimeTotal Dto.TimeLess
                  reproduces] iota zeta.
  rewrite Hst, Het, Hbr, Hl.
  cbv beta delta [or_else if_defined to_num] iota.
  rewrite !substring_hhmm, (calculateHours_wall_clock b Hs He).
  cbv beta delta [total billable] iota. rewrite ndiv_60.
  cbv beta delta [nadd same_num] iota.
  rewrite worked_clock, Ett, Etb.
  repeat split; reflexivity.
Qed.

Lemma update_reproduces_consistent_durations_witness :
  exists dto,
    sent (after (update_timesheet Scenario.update_only_id) Scenario.archive fresh)
    = [GetEditTimesheetsView (of_Z 42); GetEmployeeID; SaveTimesheet true dto]
    /\ same_num (Dto.TimeBillable dto) (of_Z 8)
    /\ same_num (Dto.TimeTotal dto) (of_Z 9)
    /\ same_num (Dto.TimeLess dto) (of_Z 1).
Proof.
  assert (R : reaches_save Scenario.update_only_id Scenario.archive fresh (of_Z 42)
                Scenario.consistent "2024-01-15T00:00:00"
                (hhmm 9 0 ++ ":00") (hhmm 18 0 ++ ":00") (Some (Some "E1"))
                {| employeeId := Some (Some "E1");
                   sent := [GetEditTimesheetsView (of_Z 42); GetEmployeeID] |}).
  { split; try reflexivity. eexists. split; reflexivity. }
  destruct (@update_reproduces_consistent_durations
              Scenario.update_only_id Scenario.archive fresh (of_Z 42)
              Scenario.consistent
              "2024-01-15T00:00:00" (Some (Some "E1")) _ 9 0 18 0 ":00" ":00"
              (inject_Z 60) (inject_Z 8) (inject_Z 9) R
              eq_refl eq_refl eq_refl)
    as [dto [Hs [Hb [Ht Hl]]]];
    try reflexivity; try (unfold wall_clock; lia).
  exists dto. split; [exact Hs |]. split; [exact Hb |]. split; [exact Ht |].
  eapply same_num_trans; [exact Hl |]. vm_compute. reflexivity.
Defined.

(** C5 as stated fails: for a stored record of 09:00 to 18:00 with a
    break of 60 minutes and 7.5 billable hours, an update with the id
    only submits 8 billable hours and a break of 1. *)
Lemma update_recomputes_the_durations :
  exists dto,
    sent (after (update_timesheet Scenario.update_only_id)
                Scenario.office fresh)
    = [GetEditTimesheetsView (of_Z 42); GetEmployeeID; SaveTimesheet true dto]
    /\ Dto.TimeBillable dto = Fin (480 # 60)
    /\ Dto.TimeLess dto = Fin (60 # 60)
    /\ ~ reproduces (Details.TimeBillable Scenario.stored) (Dto.TimeBillable dto)
    /\ ~ reproduces (Details.TimeLess Scenario.stored) (Dto.TimeLess dto).
Proof.
  eexists. split; [vm_compute; reflexivity |].
  split; [reflexivity |]. split; [reflexivity |].
  split; vm_compute; discriminate.
Qed.

End Update_facts.

(** ** The create derivation *)

Module Create_facts.
Import Js TimeProClient Server Spec Hours_facts Transport_facts Update_facts.
Local Open Scope string_scope.
Local Open Scope js_scope.

Lemma create_timesheet_checked args clientId projectId categoryId date
      startTime endTime locationId :
  required_given args clientId projectId categoryId date startTime endTime
                 locationId ->
  create_timesheet args
  = create_checked args clientId projectId categoryId date startTime endTime
                   locationId.
Proof.
  intros [[H1 N1] [H2 N2] [H3 N3] [H4 N4] [H5 N5] [H6 N6] [H7 N7]].
  unfold create_timesheet. rewrite H1, H2, H3, H4, H5, H6, H7.
  destruct clientId; [contradiction |]. destruct projectId; [contradiction |].
  destruct categoryId; [contradiction |]. destruct date; [contradiction |].
  destruct startTime; [contradiction |]. destruct endTime; [contradiction |].
  destruct locationId; [contradiction |].
  reflexivity.
Qed.

Lemma create_timesheet_missing args srv c :
  required_missing args ->
  create_timesheet args srv c
  = (Thrown (McpError InvalidParams
       [Lit "client_id, project_id, category_id, date, start_time, end_time, and location_id are all required"]),
     c).
Proof.
  intros H. unfold required_missing, missing in H. unfold create_timesheet.
  destruct (client_id args) as [s1 |]; [| reflexivity].
  destruct (project_id args) as [s2 |]; [| reflexivity].
  destruct (category_id args) as [s3 |]; [| reflexivity].
  destruct (Server.date args) as [s4 |]; [| reflexivity].
  destruct (start_time args) as [s5 |]; [| reflexivity].
  destruct (end_time args) as [s6 |]; [| reflexivity].
  destruct (location_id args) as [s7 |]; [| reflexivity].
  destruct s1; [reflexivity |]. destruct s2; [reflexivity |].
  destruct s3; [reflexivity |]. destruct s4; [reflexivity |].
  destruct s5; [reflexivity |]. destruct s6; [reflexivity |].
  destruct s7; [reflexivity |].
  exfalso.
  repeat (destruct H as [[H | H] | H]; [discriminate H | discriminate H |]).
  destruct H as [H | H]; discriminate H.
Qed.

(** C7.  A [create_timesheet] call in which one of the seven required
    arguments is absent or empty throws the invalid-parameters error and
    leaves the client as it was: the identity is not resolved and no
    request is sent. *)
Theorem create_rejects_missing_arguments_first :
  forall args srv c,
    required_missing args ->
    exists message,
      callTool "create_timesheet" args srv c
      = (Thrown (McpError InvalidParams message), c).
Proof.
  intros args srv c H. eexists.
  unfold callTool, try_catch.
  change (dispatch "create_timesheet" args) with (create_timesheet args).
  rewrite (create_timesheet_missing srv c H). reflexivity.
Qed.

Lemma div60 x : (x / 60 == x * (1 # 60))%Q.
Proof. reflexivity. Qed.

Lemma create_break_value args b :
  break_is args b -> exists q, create_break args = Fin q /\ (q == b)%Q.
Proof.
  unfold break_is, create_break.
  destruct (break_minutes args) as [[q |] |]; simpl.
  - intros H. destruct (Qeq_bool q 0) eqn:E; simpl.
    + apply Qeq_bool_iff in E. exists (inject_Z 0). split; [reflexivity |].
      rewrite <- H, E. reflexivity.
    + exists q. auto.
  - contradiction.
  - intros H. exists (inject_Z 0). split; [reflexivity |].
    rewrite H. reflexivity.
Qed.

Lemma createTimesheet_sent dto (k : Details.t -> Body) srv c :
  sent (after (result <- createTimesheet dto ;; success (k result)) srv c)
  = (sent c ++ [SaveTimesheet false dto])%list.
Proof.
  pose proof (fetch_sent (SaveTimesheet false dto) srv c) as S.
  unfold after, createTimesheet, bind in *.
  destruct (fetch (SaveTimesheet false dto) srv c) as [[j | e] c1];
    simpl in *; exact S.
Qed.

Lemma getClientRate_sent clientId srv c v rateInfo c1 :
  employeeId c = Some v ->
  getClientRate clientId srv c = (Returned rateInfo, c1) ->
  sent c1 = (sent c ++ [GetClientRate (Some v) clientId])%list.
Proof.
  intros Hc H. unfold getClientRate in H.
  rewrite (@bind_returned _ _ _ _ _ _ _ _ (getEmployeeId_cached srv c Hc)) in H.
  pose proof (fetch_sent (GetClientRate (Some v) clientId) srv c) as S.
  unfold after in S. rewrite H in S. exact S.
Qed.

Lemma rate_lookup_after_identity clientId srv c empId c1 rateInfo c2 :
  getEmployeeId srv c = (Returned empId, c1) ->
  empId <> None ->
  getClientRate clientId srv c1 = (Returned rateInfo, c2) ->
  sent c2 = (sent c1 ++ [GetClientRate empId clientId])%list.
Proof.
  intros He Hn Hr. destruct (@getEmployeeId_returned _ _ _ _ He) as [Hc1 _].
  destruct empId as [v |]; [| contradiction].
  apply (@getClientRate_sent _ _ _ _ _ _ Hc1 Hr).
Qed.

Lemma create_checked_rejects args clientId projectId categoryId date
      startTime endTime locationId srv c empId c1 :
  getEmployeeId srv c = (Returned empId, c1) ->
  nle (billable (calculateHours startTime endTime (Some (create_break args))))
      (of_Z 0) = true ->
  create_checked args clientId projectId categoryId date startTime endTime
                 locationId srv c
  = (Thrown (McpError InvalidParams
       (invalid_time_range (create_break args) startTime endTime
          (total (calculateHours startTime endTime
                                 (Some (create_break args)))))), c1).
Proof.
  intros He Hn. unfold create_checked.
  rewrite (@bind_returned _ _ _ _ _ _ _ _ He). cbv zeta. rewrite Hn.
  reflexivity.
Qed.

Lemma create_checked_submits args clientId projectId categoryId date
      startTime endTime locationId srv c empId c1 rateInfo c2 :
  getEmployeeId srv c = (Returned empId, c1) ->
  nle (billable (calculateHours startTime endTime (Some (create_break args))))
      (of_Z 0) = false ->
  getClientRate clientId srv c1 = (Returned rateInfo, c2) ->
  sent (after (create_checked args clientId projectId categoryId date
                              startTime endTime locationId) srv c)
  = (sent c2 ++ [SaveTimesheet false
                   (create_payload args clientId projectId categoryId date
                                   startTime endTime locationId empId
                                   rateInfo)])%list.
Proof.
  intros He Hn Hr. unfold after, create_checked.
  rewrite (@bind_returned _ _ _ _ _ _ _ _ He). cbv zeta. rewrite Hn.
  rewrite (@bind_returned _ _ _ _ _ _ _ _ Hr).
  pose proof (createTimesheet_sent
                (create_payload args clientId projectId categoryId date
                                startTime endTime locationId empId rateInfo)
                (fun result =>
                   BodyCreated (Details.TimesheetID result)
                               (Details.ClientName result)
                               (Details.ProjectID result)
                               (Details.DateCreated result)
                               (Details.TimeBillable result)) srv c2) as S.
  unfold after in S. exact S.
Qed.

Lemma invalid_time_range_names breakMinutes startTime endTime t :
  names_number (invalid_time_range breakMinutes startTime endTime t)
               breakMinutes
  /\ names_text (invalid_time_range breakMinutes startTime endTime t) startTime
  /\ names_text (invalid_time_range breakMinutes startTime endTime t) endTime.
Proof.
  unfold invalid_time_range. split; [| split].
  - apply names_number_later, names_number_here.
  - do 4 apply names_text_later. apply names_text_here.
  - do 6 apply names_text_later. apply names_text_here.
Qed.

(** C1.  A create call with its required arguments, wall-clock times
    [HH:MM] with end after start and a break of [b] minutes,
    0 <= b < end - start, whose identity and rate lookups succeed, sends
    after them one save request; in its payload the billable hours are
    (end - start - b) / 60, the total hours exceed them by b / 60 (they
    are (end - start) / 60), and the break is b / 60 hours. *)
Theorem create_derives_hours :
  forall args srv c clientId projectId categoryId date locationId
         (sh sm eh em : nat) (b : Q) empId c1 rateInfo c2,
    required_given args clientId projectId categoryId date
                   (hhmm sh sm) (hhmm eh em) locationId ->
    wall_clock sh sm -> wall_clock eh em ->
    (clock sh sm < clock eh em)%Q ->
    break_is args b -> (0 <= b)%Q -> (b < clock eh em - clock sh sm)%Q ->
    getEmployeeId srv c = (Returned empId, c1) ->
    getClientRate clientId srv c1 = (Returned rateInfo, c2) ->
    exists dto,
      sent (after (create_timesheet args) srv c)
      = (sent c2 ++ [SaveTimesheet false dto])%list
      /\ (empId <> None ->
          sent c2 = (sent c1 ++ [GetClientRate empId clientId])%list)
      /\ same_num (Dto.TimeBillable dto)
                  (Fin ((clock eh em - clock sh sm - b) / 60))
      /\ same_num (nsub (Dto.TimeTotal dto) (Dto.TimeBillable dto))
                  (Fin (b / 60))
      /\ same_num (Dto.TimeTotal dto) (Fin ((clock eh em - clock sh sm) / 60))
      /\ same_num (Dto.TimeLess dto) (Fin (b / 60)).
Proof.
  intros args srv c clientId projectId categoryId date locationId
         sh sm eh em b empId c1 rateInfo c2 Hreq Hs He Hlt Hb H0 Hb' Hid Hrate.
  destruct (@create_break_value args b Hb) as [q [Eq Hq]].
  assert (Hn : nle (billable (calculateHours (hhmm sh sm) (hhmm eh em)
                                             (Some (create_break args))))
                   (of_Z 0) = false).
  { rewrite Eq, (calculateHours_wall_clock q Hs He). simpl.
    destruct (Qle_bool (worked sh sm eh em q) (inject_Z 0)) eqn:E;
      [| reflexivity].
    apply Qle_bool_iff in E. rewrite worked_clock, div60, Hq in E.
    change (inject_Z 0) with 0%Q in E. lra. }
  eexists. split; [| split].
  - rewrite (@create_timesheet_checked _ _ _ _ _ _ _ _ Hreq).
    apply (@create_checked_submits args clientId projectId categoryId date _ _
                                      locationId srv c empId c1 rateInfo c2
                                      Hid Hn Hrate).
  - intros Hnn.
    apply (@rate_lookup_after_identity _ _ _ _ _ _ _ Hid Hnn Hrate).
  - cbv beta delta [create_payload Dto.TimeBillable Dto.TimeTotal
                    Dto.TimeLess] iota zeta.
    rewrite Eq, (calculateHours_wall_clock q Hs He).
    cbv beta delta [total billable] iota. rewrite ndiv_60.
    cbv beta delta [nadd nsub same_num] iota.
    change (inject_Z 60) with 60%Q.
    rewrite worked_clock, !div60, Hq. repeat split; lra.
Qed.

Lemma create_derives_hours_witness :
  exists dto,
    sent (after (create_timesheet (Scenario.create_args "09:00" "18:00" 60))
                Scenario.office fresh)
    = [GetEmployeeID; GetClientRate (Some (Some "E1")) "SSW"; SaveTimesheet false dto]
    /\ same_num (Dto.TimeBillable dto) (of_Z 8)
    /\ same_num (Dto.TimeTotal dto) (of_Z 9).
Proof.
  assert (R : required_given (Scenario.create_args "09:00" "18:00" 60)
                "SSW" "TP" "BOT" "2024-01-15" (hhmm 9 0) (hhmm 18 0) "Home")
    by (split; (split; [reflexivity | discriminate])).
  destruct (@create_derives_hours
              (Scenario.create_args "09:00" "18:00" 60) Scenario.office fresh
              "SSW" "TP" "BOT" "2024-01-15" "Home" 9 0 18 0 (inject_Z 60)
              (Some (Some "E1"))
              {| employeeId := Some (Some "E1"); sent := [GetEmployeeID] |}
              (JRate (Some (of_Z 200)))
              {| employeeId := Some (Some "E1");
                 sent := [GetEmployeeID; GetClientRate (Some (Some "E1")) "SSW"] |}
              R)
    as [dto [Hs [_ [Hb [_ [Ht _]]]]]];
    try reflexivity; try (unfold wall_clock; lia); try (vm_compute; discriminate).
  exists dto. split; [exact Hs |]. split.
  - eapply same_num_trans; [exact Hb |]. vm_compute. reflexivity.
  - eapply same_num_trans; [exact Ht |]. vm_compute. reflexivity.
Defined.

Lemma create_checked_identity_fails args clientId projectId categoryId date
      startTime endTime locationId srv c x c1 :
  getEmployeeId srv c = (Thrown x, c1) ->
  create_checked args clientId projectId categoryId date startTime endTime
                 locationId srv c
  = (Thrown x, c1).
Proof.
  intros H. unfold create_checked, bind. rewrite H. reflexivity.
Qed.

(** C2, as the code has it.  A create call with its required arguments,
    wall-clock times [HH:MM] and a break of at least end - start minutes
    ends in the invalid-parameters error, whose message names the start
    time, the end time and the break.  The identity is resolved first:
    with a stored identity no request is sent at all; without one the
    identity lookup is the only request, and if that lookup fails its
    error is the outcome.  Neither the rate lookup nor the save request
    is sent. *)
Theorem create_rejects_non_positive_range :
  forall args srv c clientId projectId categoryId date locationId
         (sh sm eh em : nat) (b : Q),
    required_given args clientId projectId categoryId date
                   (hhmm sh sm) (hhmm eh em) locationId ->
    wall_clock sh sm -> wall_clock eh em ->
    break_is args b -> (clock eh em - clock sh sm <= b)%Q ->
    exists message,
      names_text message (hhmm sh sm)
      /\ names_text message (hhmm eh em)
      /\ names_number message (create_break args)
      /\ same_num (create_break args) (Fin b)
      /\ (forall empId c1,
            getEmployeeId srv c = (Returned empId, c1) ->
            create_timesheet args srv c
            = (Thrown (McpError InvalidParams message), c1))
      /\ (forall x c1,
            getEmployeeId srv c = (Thrown x, c1) ->
            create_timesheet args srv c = (Thrown x, c1))
      /\ (forall e,
            employeeId c = Some e ->
            create_timesheet args srv c
            = (Thrown (McpError InvalidParams message), c))
      /\ (employeeId c = None ->
          sent (after (create_timesheet args) srv c)
          = (sent c ++ [GetEmployeeID])%list).
Proof.
  intros args srv c clientId projectId categoryId date locationId
         sh sm eh em b Hreq Hs He Hb Hle.
  destruct (@create_break_value args b Hb) as [q [Eq Hq]].
  assert (Hn : nle (billable (calculateHours (hhmm sh sm) (hhmm eh em)
                                             (Some (create_break args))))
                   (of_Z 0) = true).
  { rewrite Eq, (calculateHours_wall_clock q Hs He). simpl.
    apply Qle_bool_iff. rewrite worked_clock, div60, Hq.
    change (inject_Z 0) with 0%Q. lra. }
  destruct (invalid_time_range_names
              (create_break args) (hhmm sh sm) (hhmm eh em)
              (total (calculateHours (hhmm sh sm) (hhmm eh em)
                                     (Some (create_break args)))))
    as [Nb [Ns Ne]].
  eexists. split; [exact Ns |]. split; [exact Ne |]. split; [exact Nb |].
  split; [rewrite Eq; exact Hq |].
  rewrite (@create_timesheet_checked _ _ _ _ _ _ _ _ Hreq).
  assert (Hret : forall empId c1,
             getEmployeeId srv c = (Returned empId, c1) ->
             create_checked args clientId projectId categoryId date
                            (hhmm sh sm) (hhmm eh em) locationId srv c
             = (Thrown (McpError InvalidParams
                  (invalid_time_range (create_break args) (hhmm sh sm)
                     (hhmm eh em)
                     (total (calculateHours (hhmm sh sm) (hhmm eh em)
                                            (Some (create_break args)))))),
                c1)).
  { intros empId c1 Hid.
    apply (@create_checked_rejects args clientId projectId categoryId date
             (hhmm sh sm) (hhmm eh em) locationId srv c empId c1 Hid Hn). }
  split; [exact Hret |].
  split; [intros x c1 Hid; apply create_checked_identity_fails; exact Hid |].
  split.
  - intros e Hc. apply (Hret (Some e) c). apply getEmployeeId_cached. exact Hc.
  - intros Hc. pose proof (getEmployeeId_first srv c Hc) as S.
    unfold after in *.
    destruct (getEmployeeId srv c) as [[empId | x] c1] eqn:Hid.
    + rewrite (Hret _ _ eq_refl). exact S.
    + rewrite (@create_checked_identity_fails args clientId projectId
                 categoryId date (hhmm sh sm) (hhmm eh em) locationId
                 srv c x c1 Hid).
      exact S.
Qed.

Lemma create_rejects_non_positive_range_witness :
  exists message,
    create_timesheet (Scenario.create_args "09:00" "10:00" 60) Scenario.office
                     {| employeeId := Some (Some "E1"); sent := [] |}
    = (Thrown (McpError InvalidParams message),
       {| employeeId := Some (Some "E1"); sent := [] |})
    /\ names_text message "09:00" /\ names_text message "10:00"
    /\ names_number message (of_Z 60).
Proof.
  assert (R : required_given (Scenario.create_args "09:00" "10:00" 60)
                "SSW" "TP" "BOT" "2024-01-15" (hhmm 9 0) (hhmm 10 0) "Home")
    by (split; (split; [reflexivity | discriminate])).
  destruct (@create_rejects_non_positive_range
              (Scenario.create_args "09:00" "10:00" 60) Scenario.office
              {| employeeId := Some (Some "E1"); sent := [] |}
              "SSW" "TP" "BOT" "2024-01-15" "Home" 9 0 10 0 (inject_Z 60) R)
    as [message [Ns [Ne [Nb [_ [_ [_ [Hc _]]]]]]]];
    try reflexivity; try (unfold wall_clock; lia); try (vm_compute; discriminate).
  exists message. split; [apply (Hc (Some "E1")); reflexivity |].
  split; [exact Ns |]. split; [exact Ne | exact Nb].
Defined.

(** C2 as stated fails, at 09:00 to 10:00 with a break of 60 minutes: the
    create call has sent the identity lookup when it throws, and the
    update call does not fail at all, it saves zero billable hours. *)
Lemma non_positive_range_reaches_the_service :
  (exists message,
      callTool "create_timesheet" (Scenario.create_args "09:00" "10:00" 60)
               Scenario.office fresh
      = (Thrown (McpError InvalidParams message),
         {| employeeId := Some (Some "E1"); sent := [GetEmployeeID] |}))
  /\ (exists result dto,
        callTool "update_timesheet"
                 (Scenario.with_times Scenario.update_only_id
                    (Some "09:00") (Some "10:00") (Some (of_Z 60)))
                 Scenario.office fresh
        = (Returned result,
           {| employeeId := Some (Some "E1");
              sent := [GetEditTimesheetsView (of_Z 42); GetEmployeeID;
                       SaveTimesheet true dto] |})
        /\ isError result = false
        /\ Dto.TimeBillable dto = Fin (0 # 60)).
Proof.
  split.
  - eexists. vm_compute. reflexivity.
  - eexists. eexists. split; [vm_compute; reflexivity |].
    split; reflexivity.
Qed.

(** C6.  The payload of an update carries the sell price of the fetched
    record; no tool but [create_timesheet] ever sends a rate lookup,
    whatever its arguments and whatever the service answers; a create
    call that gets through sends the rate lookup and puts the rate it
    returns into the payload. *)
Theorem sell_price_is_carried_forward_on_update :
  (forall args srv c id existing created start finish empId c2,
      reaches_save args srv c id existing created start finish empId c2 ->
      exists dto,
        sent (after (update_timesheet args) srv c)
        = (sent c2 ++ [SaveTimesheet true dto])%list
        /\ Dto.SellPrice dto = Details.SellPrice existing)
  /\ (forall name args srv c,
        name <> "create_timesheet" ->
        exists new,
          sent (after (callTool name args) srv c) = (sent c ++ new)%list
          /\ Forall (fun r => is_rate_lookup r = false) new)
  /\ (forall args srv c clientId projectId categoryId date startTime endTime
             locationId empId c1 rateInfo c2,
        required_given args clientId projectId categoryId date startTime
                       endTime locationId ->
        getEmployeeId srv c = (Returned empId, c1) ->
        nle (billable (calculateHours startTime endTime
                                      (Some (create_break args))))
            (of_Z 0) = false ->
        getClientRate clientId srv c1 = (Returned rateInfo, c2) ->
        exists dto,
          sent (after (create_timesheet args) srv c)
          = (sent c2 ++ [SaveTimesheet false dto])%list
          /\ (empId <> None ->
              sent c2 = (sent c1 ++ [GetClientRate empId clientId])%list)
          /\ Dto.SellPrice dto = Rate_of rateInfo).
Proof.
  split; [| split].
  - intros args srv c id existing created start finish empId c2 H.
    eexists. split; [apply (update_timesheet_submits H) | reflexivity].
  - intros name args srv c Hname. unfold after.
    destruct (callTool name args srv c) as [o c'] eqn:E.
    destruct (callTool_run _ _ _ _ (law_dispatch_other args Hname) E)
      as [new [S1 [F1 _]]].
    exists new. split; [exact S1 | exact F1].
  - intros args srv c clientId projectId categoryId date startTime endTime
           locationId empId c1 rateInfo c2 Hreq Hid Hn Hrate.
    eexists. split; [| split].
    + rewrite (@create_timesheet_checked _ _ _ _ _ _ _ _ Hreq).
      apply (@create_checked_submits args clientId projectId categoryId date
               startTime endTime locationId srv c empId c1 rateInfo c2
               Hid Hn Hrate).
    + intros Hnn.
      apply (@rate_lookup_after_identity _ _ _ _ _ _ _ Hid Hnn Hrate).
    + reflexivity.
Qed.

Lemma sell_price_is_carried_forward_on_update_witness :
  (exists dto,
      sent (after (update_timesheet Scenario.update_only_id)
                  Scenario.office fresh)
      = [GetEditTimesheetsView (of_Z 42); GetEmployeeID; SaveTimesheet true dto]
      /\ Dto.SellPrice dto = Some (of_Z 150))
  /\ (exists new,
        sent (after (callTool "update_timesheet" Scenario.update_only_id)
                    Scenario.office fresh) = new
        /\ Forall (fun r => is_rate_lookup r = false) new).
Proof.
  destruct sell_price_is_carried_forward_on_update as [Hupd [Hother _]].
  split.
  - destruct (Hupd _ _ _ _ _ _ _ _ _ _
                   (@stored_reaches_save Scenario.update_only_id eq_refl))
      as [dto [Hs Hp]].
    exists dto. split; [exact Hs | exact Hp].
  - destruct (Hother "update_timesheet" Scenario.update_only_id
                     Scenario.office fresh) as [new [Hs Hf]];
      [discriminate |].
    exists new. split; [exact Hs | exact Hf].
Defined.

Lemma create_rejects_missing_arguments_first_witness :
  exists message,
    callTool "create_timesheet"
             (Scenario.with_client (Scenario.create_args "09:00" "18:00" 60) None)
             Scenario.office fresh
    = (Thrown (McpError InvalidParams message), fresh).
Proof.
  apply create_rejects_missing_arguments_first.
  left. left. reflexivity.
Defined.

End Create_facts.

(** ** Clock strings: what the helpers accept and what they add *)

Module Format_facts.
Import Js TimeProClient Server Spec Coverage Hours_facts Transport_facts.
Local Open Scope string_scope.

Lemma split_not_nil sep s : split sep s <> [].
Proof.
  destruct s as [| c r]; simpl; [discriminate |].
  destruct (Ascii.eqb c sep); [discriminate |].
  destruct (split sep r); discriminate.
Qed.

Lemma split_append sep s t :
  split sep (s ++ String sep t) = (split sep s ++ split sep t)%list.
Proof.
  induction s as [| c r IH]; simpl.
  - rewrite Ascii.eqb_refl. reflexivity.
  - destruct (Ascii.eqb c sep); [rewrite IH; reflexivity |].
    rewrite IH. pose proof (split_not_nil sep r) as N.
    destruct (split sep r); [contradiction | reflexivity].
Qed.


Lemma append_empty s : s ++ "" = s.
Proof. induction s as [| c r IH]; simpl; [reflexivity | now rewrite IH]. Qed.

Lemma parts_with_suffix time :
  List.length (split ":" (time ++ ":00")) = S (List.length (split ":" time)).
Proof.
  change (time ++ ":00") with (time ++ String ":" "00").
  rewrite split_append, length_app. simpl. lia.
Qed.

(** X1.  [formatDateTime] is [formatTime] behind the date and a [T].
    [formatTime] leaves a time of three colon-separated parts as it is and
    appends [:00] to every other one, which then has one part more; so a
    time of two or three parts comes out with three parts and formatting
    it again changes nothing, while a time without a colon comes out with
    two parts only. *)
Theorem formatTime_completes_the_seconds :
  forall (date time : string) (n : nat),
    List.length (split ":" time) = n ->
    formatDateTime date time = date ++ "T" ++ formatTime time
    /\ (n = 3%nat -> formatTime time = time)
    /\ (n <> 3%nat ->
        formatTime time = time ++ ":00"
        /\ List.length (split ":" (formatTime time)) = S n)
    /\ (n = 2%nat \/ n = 3%nat ->
        List.length (split ":" (formatTime time)) = 3%nat
        /\ formatTime (formatTime time) = formatTime time).
Proof.
  intros date time n Hn.
  assert (H3 : n = 3%nat -> formatTime time = time).
  { intros ->. unfold formatTime. rewrite Hn. reflexivity. }
  assert (Hn3 : n <> 3%nat -> formatTime time = time ++ ":00").
  { intros H. unfold formatTime. rewrite Hn.
    destruct (Nat.eqb_spec n 3); [contradiction | reflexivity]. }
  split; [reflexivity |]. split; [exact H3 |]. split.
  - intros H. split; [exact (Hn3 H) |].
    rewrite (Hn3 H), parts_with_suffix, Hn. reflexivity.
  - intros [-> | ->].
    + assert (E : formatTime time = time ++ ":00") by (apply Hn3; discriminate).
      assert (L : List.length (split ":" (time ++ ":00")) = 3%nat)
        by (rewrite parts_with_suffix, Hn; reflexivity).
      rewrite E. split; [exact L |].
      unfold formatTime at 1. rewrite L. reflexivity.
    + rewrite (H3 eq_refl). split; [exact Hn | exact (H3 eq_refl)].
Qed.

Lemma formatTime_completes_the_seconds_witness :
  formatDateTime "2024-01-15" "09:00" = "2024-01-15T09:00:00"
  /\ formatTime (formatTime "09:00") = "09:00:00"
  /\ formatTime "09:00:30" = "09:00:30"
  /\ formatTime "9" = "9:00".
Proof.
  destruct (@formatTime_completes_the_seconds "2024-01-15" "09:00" 2 eq_refl)
    as [Hd [_ [_ Hi]]].
  destruct (@formatTime_completes_the_seconds "" "09:00:30" 3 eq_refl)
    as [_ [Hs _]].
  destruct (@formatTime_completes_the_seconds "" "9" 1 eq_refl)
    as [_ [_ [Hone _]]].
  split; [rewrite Hd; reflexivity |].
  split; [destruct (Hi (or_introl eq_refl)) as [_ ->]; reflexivity |].
  split; [apply Hs; reflexivity |].
  destruct Hone as [-> _]; [discriminate | reflexivity].
Defined.

Lemma element_app_l (l1 l2 : list string) (i : nat) :
  (i < List.length l1)%nat ->
  element (map Number (l1 ++ l2)) i = element (map Number l1) i.
Proof.
  intros H. unfold element. rewrite map_app.
  apply app_nth1. rewrite length_map. exact H.
Qed.

(** X2.  [calculateHours] reads the first two colon-separated parts of each
    time only: whatever follows a further colon, seconds included, does not
    change the result. *)
Theorem calculateHours_ignores_the_seconds :
  forall (startTime endTime rest1 rest2 : string) (breakMinutes : option num),
    (2 <= List.length (split ":" startTime))%nat ->
    (2 <= List.length (split ":" endTime))%nat ->
    calculateHours (startTime ++ ":" ++ rest1) (endTime ++ ":" ++ rest2)
                   breakMinutes
    = calculateHours startTime endTime breakMinutes.
Proof.
  intros startTime endTime rest1 rest2 breakMinutes Hs He.
  unfold calculateHours.
  change (startTime ++ ":" ++ rest1) with (startTime ++ String ":" rest1).
  change (endTime ++ ":" ++ rest2) with (endTime ++ String ":" rest2).
  rewrite !split_append, !element_app_l by lia.
  reflexivity.
Qed.

Lemma calculateHours_ignores_the_seconds_witness :
  calculateHours "09:00:59" "18:00:01" (Some (of_Z 60))
  = calculateHours "09:00" "18:00" (Some (of_Z 60)).
Proof.
  apply (@calculateHours_ignores_the_seconds "09:00" "18:00" "59" "01");
    simpl; lia.
Defined.




Lemma two_digit_fields_read h m :
  (h < 100)%nat -> (m < 100)%nat ->
  element (map Number (split ":" (hhmm h m))) 0 = of_Z (Z.of_nat h)
  /\ element (map Number (split ":" (hhmm h m))) 1 = of_Z (Z.of_nat m).
Proof.
  intros Hh Hm.
  assert (A : forallb reads_all (seq 0 100) = true) by (vm_compute; reflexivity).
  pose proof (below_forallb reads_all A Hh) as B. unfold reads_all in B.
  pose proof (below_forallb (reads_as h) B Hm) as C. unfold reads_as in C.
  apply andb_prop in C. destruct C as [C1 C2].
  split; apply num_eqb_eq; assumption.
Qed.

(** X4.  [calculateHours] checks no range: in [HH:MM] any two digits are
    read as hours and any two digits as minutes, and both are simply
    counted, so that the result is ((60 eh + em) - (60 sh + sm) - b) / 60
    for hours up to 99 and minutes up to 99 alike. *)
Theorem calculateHours_counts_any_two_digits :
  forall (sh sm eh em : nat) (b : Q),
    (sh < 100)%nat -> (sm < 100)%nat -> (eh < 100)%nat -> (em < 100)%nat ->
    same_num (total (calculateHours (hhmm sh sm) (hhmm eh em) (Some (Fin b))))
             (Fin ((clock eh em - clock sh sm - b) / 60)).
Proof.
  intros sh sm eh em b Hsh Hsm Heh Hem.
  destruct (two_digit_fields_read Hsh Hsm) as [S0 S1].
  destruct (two_digit_fields_read Heh Hem) as [E0 E1].
  unfold calculateHours. rewrite S0, S1, E0, E1. simpl.
  apply (worked_clock sh sm eh em b).
Qed.

Lemma calculateHours_counts_any_two_digits_witness :
  same_num (total (calculateHours "09:60" "10:90" (Some (of_Z 0)))) (Fin (3 # 2)).
Proof.
  eapply same_num_trans.
  - apply (@calculateHours_counts_any_two_digits 9 60 10 90 (inject_Z 0)); lia.
  - vm_compute. reflexivity.
Defined.

Lemma remove_trailing_slash_appended u : remove_trailing_slash (u ++ "/") = u.
Proof.
  induction u as [| c r IH]; [reflexivity |].
  change (String c r ++ "/") with (String c (r ++ "/")).
  simpl. rewrite IH. destruct r; reflexivity.
Qed.

Lemma remove_trailing_slash_cases u :
  remove_trailing_slash u = u \/ u = remove_trailing_slash u ++ "/".
Proof.
  induction u as [| c r IH]; [left; reflexivity |].
  destruct r as [| d r'].
  - simpl. destruct (Ascii.eqb_spec c "/") as [-> | N];
      [right; reflexivity | left; reflexivity].
  - change (remove_trailing_slash (String c (String d r')))
      with (String c (remove_trailing_slash (String d r'))).
    destruct IH as [IH | IH].
    + left. rewrite IH. reflexivity.
    + right.
      change (String c (String d r')
              = String c (remove_trailing_slash (String d r') ++ "/")).
      f_equal. exact IH.
Qed.

(** X15.  The constructor stores the base address with one slash at its
    end removed and nothing else changed: an address given with one more
    slash at the end is stored as the address itself, so both address the
    same requests, and the stored address is the given one or the given
    one without its last slash. *)
Theorem constructor_removes_one_trailing_slash :
  forall (address key tenant endpoint : string),
    url (fst (constructor (address ++ "/") key tenant)) endpoint
    = address ++ endpoint
    /\ (baseUrl (fst (constructor address key tenant)) = address
        \/ address = baseUrl (fst (constructor address key tenant)) ++ "/")
    /\ snd (constructor address key tenant) = fresh.
Proof.
  intros address key tenant endpoint. unfold url, constructor. simpl.
  rewrite remove_trailing_slash_appended.
  split; [reflexivity |]. split; [apply remove_trailing_slash_cases | reflexivity].
Qed.

End Format_facts.

(** ** The dispatcher as a whole *)

Module Dispatcher_facts.
Import Js TimeProClient Server Spec Coverage Hours_facts Transport_facts.
Local Open Scope string_scope.
Local Open Scope js_scope.

(** X5.  A tool name that is not one of the ten makes the handler throw
    the method-not-found error, which names it; the client is left as it
    was. *)
Theorem unknown_tool_is_method_not_found :
  forall name args srv c,
    ~ In name tool_names ->
    callTool name args srv c
    = (Thrown (McpError MethodNotFound [Lit "Unknown tool: "; Lit name]), c).
Proof.
  intros name args srv c H. unfold callTool, try_catch, dispatch.
  repeat match goal with
         | |- context [(name =? ?s)%string] =>
             destruct (String.eqb_spec name s) as [-> | _];
             [exfalso; apply H; simpl; tauto |]
         end.
  reflexivity.
Qed.

Lemma unknown_tool_is_method_not_found_witness :
  callTool "List_Clients" no_args Scenario.office fresh
  = (Thrown (McpError MethodNotFound [Lit "Unknown tool: "; Lit "List_Clients"]),
     fresh).
Proof.
  apply unknown_tool_is_method_not_found.
  simpl. intros H.
  repeat (destruct H as [H | H]; [discriminate H |]). exact H.
Defined.

Lemma id_missing_cases (x : option num) :
  id_missing x -> x = None \/ exists n, x = Some n /\ truthy_num n = false.
Proof.
  unfold id_missing. destruct x as [n |]; simpl; intros H.
  - right. exists n. auto.
  - left. reflexivity.
Qed.

(** X6.  Each tool with a required argument checks it before anything
    else: when the argument is absent or empty (for the numeric timesheet
    id: absent, zero or not a number) the call throws the
    invalid-parameters error and the client is left as it was, so that
    nothing has been sent. *)
Theorem required_arguments_are_checked_first :
  forall args srv c,
    (missing (client_id args) ->
     callTool "list_projects" args srv c
     = (Thrown (McpError InvalidParams [Lit "client_id is required"]), c))
    /\ (missing (date args) ->
        callTool "get_timesheet_defaults" args srv c
        = (Thrown (McpError InvalidParams [Lit "date is required"]), c))
    /\ (missing (start_date args) \/ missing (end_date args) ->
        callTool "list_timesheets" args srv c
        = (Thrown (McpError InvalidParams
                     [Lit "start_date and end_date are required"]), c))
    /\ (id_missing (timesheet_id args) ->
        forall name,
          name = "get_timesheet" \/ name = "update_timesheet"
          \/ name = "delete_timesheet" ->
          callTool name args srv c
          = (Thrown (McpError InvalidParams [Lit "timesheet_id is required"]), c)).
Proof.
  intros args srv c. unfold callTool, try_catch, missing.
  split; [| split; [| split]].
  - change (dispatch "list_projects" args)
      with (match client_id args with
            | Some (String _ _ as clientId) =>
                projects <- getProjectsForClient clientId ;;
                success (BodyJson projects)
            | _ => throw (McpError InvalidParams [Lit "client_id is required"])
            end).
    intros [-> | ->]; reflexivity.
  - change (dispatch "get_timesheet_defaults" args)
      with (match date args with
            | Some (String _ _ as date) =>
                defaults <- getTimesheetDefaults date ;;
                success (BodyJson defaults)
            | _ => throw (McpError InvalidParams [Lit "date is required"])
            end).
    intros [-> | ->]; reflexivity.
  - change (dispatch "list_timesheets" args)
      with (match start_date args, end_date args with
            | Some (String _ _ as startDate), Some (String _ _ as endDate) =>
                timesheets <- listTimesheets startDate endDate ;;
                success (BodyJson timesheets)
            | _, _ =>
                throw (McpError InvalidParams
                         [Lit "start_date and end_date are required"])
            end).
    intros [[H | H] | [H | H]]; rewrite H;
      try reflexivity; destruct (start_date args) as [[| a s] |]; reflexivity.
  - intros H name Hname. apply id_missing_cases in H.
    destruct Hname as [-> | [-> | ->]].
    + change (dispatch "get_timesheet" args)
        with (match timesheet_id args with
              | Some timesheetId =>
                  if negb (truthy_num timesheetId) then
                    throw (McpError InvalidParams [Lit "timesheet_id is required"])
                  else
                    timesheet <- getTimesheet timesheetId ;;
                    success (BodyDetails timesheet)
              | None =>
                  throw (McpError InvalidParams [Lit "timesheet_id is required"])
              end).
      destruct H as [-> | [n [-> Hn]]]; [| rewrite Hn]; reflexivity.
    + change (dispatch "update_timesheet" args) with (update_timesheet args).
      unfold update_timesheet.
      destruct H as [-> | [n [-> Hn]]]; [| rewrite Hn]; reflexivity.
    + change (dispatch "delete_timesheet" args)
        with (match timesheet_id args with
              | Some timesheetId =>
                  if negb (truthy_num timesheetId) then
                    throw (McpError InvalidParams [Lit "timesheet_id is required"])
                  else
                    _ <- deleteTimesheet timesheetId ;;
                    success (BodyMessage
                               [Lit "Timesheet "; Val timesheetId;
                                Lit " deleted successfully"])
              | None =>
                  throw (McpError InvalidParams [Lit "timesheet_id is required"])
              end).
      destruct H as [-> | [n [-> Hn]]]; [| rewrite Hn]; reflexivity.
Qed.

Lemma required_arguments_are_checked_first_witness :
  callTool "delete_timesheet"
           (Scenario.with_times Scenario.update_only_id None None None)
           Scenario.office fresh
  <> (Thrown (McpError InvalidParams [Lit "timesheet_id is required"]), fresh)
  /\ callTool "list_projects" no_args Scenario.office fresh
     = (Thrown (McpError InvalidParams [Lit "client_id is required"]), fresh)
  /\ callTool "delete_timesheet" no_args Scenario.office fresh
     = (Thrown (McpError InvalidParams [Lit "timesheet_id is required"]), fresh).
Proof.
  destruct (required_arguments_are_checked_first no_args Scenario.office fresh)
    as [Hp [_ [_ Hid]]].
  split; [vm_compute; discriminate |].
  split; [apply Hp; left; reflexivity |].
  apply Hid; [reflexivity | right; right; reflexivity].
Defined.

(** *** Which tools write *)

Lemma law_create_timesheet_kinds (P : Request -> Prop) args :
  P GetEmployeeID -> (forall e x, P (GetClientRate e x)) ->
  (forall d, P (SaveTimesheet false d)) ->
  law P (create_timesheet args).
Proof.
  intros H1 H2 H3.
  unfold create_timesheet, getClientRate, createTimesheet, success.
  lawful.
Qed.

Lemma law_update_timesheet_kinds (P : Request -> Prop) args :
  P GetEmployeeID -> (forall n, P (GetEditTimesheetsView n)) ->
  (forall d, P (SaveTimesheet true d)) ->
  law P (update_timesheet args).
Proof.
  intros H1 H2 H3.
  unfold update_timesheet, getTimesheet, updateTimesheet, success.
  lawful.
Qed.

Lemma law_dispatch_writes name args :
  law (fun r => may_write name r = true) (dispatch name args).
Proof.
  unfold dispatch.
  repeat match goal with
         | |- context [(name =? ?s)%string] =>
             destruct (String.eqb_spec name s) as [-> | _]; cbv iota;
             [try (apply law_create_timesheet_kinds; intros; reflexivity);
              try (apply law_update_timesheet_kinds; intros; reflexivity);
              unfold searchClients, getProjectsForClient, getCategories,
                getLocations, getTimesheetDefaults, listTimesheets,
                getTimesheet, deleteTimesheet, success;
              lawful |]
         end.
  apply law_throw_mcp.
Qed.

Lemma may_write_method name r :
  may_write name r = true ->
  (http_method r = POST ->
   exists isEdit dto,
     r = SaveTimesheet isEdit dto
     /\ name = (if isEdit then "update_timesheet" else "create_timesheet"))
  /\ (http_method r = DELETE -> name = "delete_timesheet").
Proof.
  intros H. destruct r; simpl in *; split; intros M; try discriminate M.
  - exists isEdit, timesheet. split; [reflexivity |].
    destruct isEdit; apply String.eqb_eq; exact H.
  - apply String.eqb_eq. exact H.
Qed.

(** X7.  Writing requests come from the writing tools only, whatever the
    arguments and whatever the service answers: a tool call sends a POST
    only as the save request of [create_timesheet] (for a new record) or
    of [update_timesheet] (for an existing one), and a DELETE only from
    [delete_timesheet]; every request of the seven other tools is a GET. *)
Theorem only_the_writing_tools_write :
  forall name args srv c,
    exists new,
      sent (after (callTool name args) srv c) = (sent c ++ new)%list
      /\ (forall r, In r new -> http_method r = POST ->
          exists isEdit dto,
            r = SaveTimesheet isEdit dto
            /\ name = (if isEdit then "update_timesheet"
                       else "create_timesheet"))
      /\ (forall r, In r new -> http_method r = DELETE ->
          name = "delete_timesheet")
      /\ (name <> "create_timesheet" -> name <> "update_timesheet" ->
          name <> "delete_timesheet" ->
          Forall (fun r => http_method r = GET) new).
Proof.
  intros name args srv c. unfold after.
  destruct (callTool name args srv c) as [o c'] eqn:E.
  destruct (callTool_run _ _ _ _ (law_dispatch_writes name args) E)
    as [new [S1 [F1 _]]].
  exists new. split; [exact S1 |].
  rewrite Forall_forall in F1.
  split; [| split].
  - intros r Hin. apply (may_write_method name r (F1 r Hin)).
  - intros r Hin. apply (may_write_method name r (F1 r Hin)).
  - intros N1 N2 N3. apply Forall_forall. intros r Hin.
    destruct (may_write_method name r (F1 r Hin)) as [Hp Hd].
    destruct (http_method r); [reflexivity | |].
    + destruct (Hp eq_refl) as [[|] [dto [_ Hn]]]; contradiction.
    + specialize (Hd eq_refl). contradiction.
Qed.

Lemma only_the_writing_tools_write_witness :
  exists new,
    sent (after (callTool "list_projects"
                          (Scenario.with_client no_args
                             (Some "../../Timesheets/DeleteTimesheet/42")))
                Scenario.office fresh) = new
    /\ Forall (fun r => http_method r = GET) new.
Proof.
  destruct (only_the_writing_tools_write
              "list_projects"
              (Scenario.with_client no_args
                 (Some "../../Timesheets/DeleteTimesheet/42"))
              Scenario.office fresh) as [new [S1 [_ [_ G]]]].
  exists new. split; [exact S1 |].
  apply G; discriminate.
Defined.

(** *** How many requests a call sends *)

Lemma frugal_pure n k {A} (o : Outcome A) : frugal n k (fun _ c => (o, c)).
Proof.
  intros srv c o' c' H. inversion H; subst. exists [].
  rewrite app_nil_r. simpl. repeat split; auto; lia.
Qed.

Lemma frugal_ret n k {A} (a : A) : frugal n k (ret a).
Proof. apply frugal_pure. Qed.

Lemma frugal_throw n k {A} e : frugal n k (@throw A e).
Proof. apply frugal_pure. Qed.

Lemma frugal_or_throw n k {A} (x : option A) : frugal n k (or_throw x).
Proof. destruct x; apply frugal_pure. Qed.

Lemma fetch_employeeId endpoint srv c :
  employeeId (after (fetch endpoint) srv c) = employeeId c.
Proof.
  unfold after, fetch.
  destruct (srv (sent c) endpoint) as [response |]; [| reflexivity].
  destruct (ok response); simpl; [| reflexivity].
  destruct (truthy_str (body response)); simpl; [| reflexivity].
  destruct (parsed response); reflexivity.
Qed.

Lemma frugal_fetch n k endpoint : frugal (S n) k (fetch endpoint).
Proof.
  intros srv c o c' H. exists [endpoint].
  pose proof (fetch_sent endpoint srv c) as S.
  pose proof (fetch_employeeId endpoint srv c) as I.
  unfold after in S, I. rewrite H in S, I. simpl in S, I.
  split; [exact S |]. simpl. split; [lia |].
  intros Hc. split; [lia | rewrite I; exact Hc].
Qed.

Lemma frugal_getEmployeeId n k : frugal n (S k) getEmployeeId.
Proof.
  intros srv c o c' H. destruct (employeeId c) as [e |] eqn:Hc.
  - rewrite (getEmployeeId_cached srv c Hc) in H. inversion H; subst.
    exists []. rewrite app_nil_r. simpl.
    repeat split; auto; try lia. congruence.
  - exists [GetEmployeeID].
    pose proof (getEmployeeId_first srv c Hc) as S. unfold after in S.
    rewrite H in S. simpl in S.
    split; [exact S |]. simpl. split; [lia |].
    intros N. contradiction.
Qed.

Lemma frugal_bind n1 k1 n2 k2 {A B} (m : M A) (f : A -> M B) :
  frugal n1 k1 m -> (forall a, frugal n2 k2 (f a)) ->
  frugal (n1 + n2) (k1 + k2) (bind m f).
Proof.
  intros Hm Hf srv c o c' H. unfold bind in H.
  destruct (m srv c) as [[a | e] c1] eqn:E.
  - destruct (Hm _ _ _ _ E) as [new1 [S1 [L1 C1]]].
    destruct (Hf a _ _ _ _ H) as [new2 [S2 [L2 C2]]].
    exists (new1 ++ new2)%list. rewrite S2, S1, app_assoc, length_app.
    split; [reflexivity |]. split; [lia |].
    intros Hc. destruct (C1 Hc) as [Z1 Hc1]. destruct (C2 Hc1) as [Z2 Hc'].
    split; [lia | exact Hc'].
  - inversion H; subst.
    destruct (Hm _ _ _ _ E) as [new1 [S1 [L1 C1]]].
    exists new1. split; [exact S1 |]. split; [lia |].
    intros Hc. destruct (C1 Hc) as [Z1 Hc1]. split; [lia | exact Hc1].
Qed.

Lemma frugal_le n k n' k' {A} (m : M A) :
  (n <= n')%nat -> (k <= k')%nat -> frugal n k m -> frugal n' k' m.
Proof.
  intros Hn Hk Hm srv c o c' H.
  destruct (Hm _ _ _ _ H) as [new [S1 [L1 C1]]].
  exists new. split; [exact S1 |]. split; [lia |].
  intros Hc. destruct (C1 Hc) as [Z1 Hc1]. split; [lia | exact Hc1].
Qed.

Lemma frugal_identity_then n k endpoint {B} (f : Json -> M B) :
  (forall j, frugal n k (f j)) ->
  frugal (S n) (S k)
         (x <- (empId <- getEmployeeId ;; fetch (endpoint empId)) ;; f x).
Proof.
  intros Hf.
  apply (@frugal_bind 1 1 n k).
  - apply (@frugal_bind 0 1 1 0); [apply frugal_getEmployeeId |].
    intros e. apply frugal_fetch.
  - exact Hf.
Qed.

Lemma frugal_fetch_then n k endpoint {B} (f : Json -> M B) :
  (forall j, frugal n k (f j)) ->
  frugal (S n) k (x <- fetch endpoint ;; f x).
Proof.
  intros Hf. apply (@frugal_bind 1 0 n k); [apply frugal_fetch | exact Hf].
Qed.

Lemma frugal_create_timesheet args : frugal 2 2 (create_timesheet args).
Proof.
  unfold create_timesheet, getClientRate, createTimesheet, success.
  repeat match goal with
         | |- frugal _ _ (match ?x with _ => _ end) =>
             destruct x; try apply frugal_throw
         end.
  apply (@frugal_bind 0 1 2 1); [apply frugal_getEmployeeId |]. intros empId.
  match goal with
  | |- frugal _ _ (if ?b then _ else _) => destruct b; [apply frugal_throw |]
  end.
  apply (@frugal_identity_then 1 0). intros rateInfo.
  apply (@frugal_bind 1 0 0 0); [| intros; apply frugal_ret].
  apply frugal_fetch_then. intros; apply frugal_ret.
Qed.

Lemma frugal_update_timesheet args : frugal 2 1 (update_timesheet args).
Proof.
  unfold update_timesheet, getTimesheet, updateTimesheet, success.
  destruct (timesheet_id args) as [id |]; [| apply frugal_throw].
  destruct (negb (truthy_num id)); [apply frugal_throw |].
  apply (@frugal_bind 1 0 1 1).
  - apply frugal_fetch_then. intros; apply frugal_ret.
  - intros existing.
    do 3 (apply (@frugal_bind 0 0 1 1); [apply frugal_or_throw | intros ?]).
    apply (@frugal_bind 0 1 1 0); [apply frugal_getEmployeeId | intros empId].
    apply (@frugal_bind 1 0 0 0); [| intros; apply frugal_ret].
    apply frugal_fetch_then. intros; apply frugal_ret.
Qed.

Lemma frugal_dispatch_other name args :
  name <> "create_timesheet" -> frugal 2 1 (dispatch name args).
Proof.
  intros Hname. unfold dispatch.
  destruct (String.eqb_spec name "create_timesheet") as [E | _];
    [contradiction |].
  repeat match goal with
         | |- frugal _ _ (if (name =? ?s)%string then _ else _) =>
             destruct (name =? s)%string
         end;
    try apply frugal_update_timesheet; try apply frugal_throw;
    unfold searchClients, getProjectsForClient, getCategories, getLocations,
      getTimesheetDefaults, listTimesheets, getTimesheet, deleteTimesheet,
      success;
    repeat match goal with
           | |- frugal _ _ (match ?x with _ => _ end) =>
               destruct x; try apply frugal_throw
           end;
    apply (@frugal_le 1 1 2 1); try lia;
    first [ apply (@frugal_fetch_then 0 1); intros; apply frugal_ret
          | apply (@frugal_identity_then 0 0); intros; apply frugal_ret
          | apply (@frugal_bind 1 1 0 0); [| intros; apply frugal_ret];
            apply (@frugal_fetch_then 0 1); intros; apply frugal_ret ].
Qed.

Lemma callTool_frugal n k name args :
  frugal n k (dispatch name args) -> frugal n k (callTool name args).
Proof.
  intros Hd srv c o c' H. unfold callTool, try_catch in H.
  destruct (dispatch name args srv c) as [[a | [code msg | msg]] c1] eqn:E;
    inversion H; subst; apply (Hd _ _ _ _ E).
Qed.

(** X8.  A tool call sends at most four requests, at most three unless the
    tool is [create_timesheet], and at most two when the client holds its
    identity at the start. *)
Theorem tool_call_sends_at_most_four_requests :
  forall name args srv c,
    exists new,
      sent (after (callTool name args) srv c) = (sent c ++ new)%list
      /\ (List.length new <= 4)%nat
      /\ (name <> "create_timesheet" -> List.length new <= 3)%nat
      /\ (employeeId c <> None -> List.length new <= 2)%nat.
Proof.
  intros name args srv c. unfold after.
  destruct (callTool name args srv c) as [o c'] eqn:E. simpl.
  destruct (String.eqb_spec name "create_timesheet") as [-> | Hname].
  - destruct (@callTool_frugal 2 2 "create_timesheet" args
                (frugal_create_timesheet args) _ _ _ _ E)
      as [new [S1 [L1 C1]]].
    exists new. split; [exact S1 |]. split; [exact L1 |].
    split; [intros N; contradiction | intros Hc; apply (C1 Hc)].
  - destruct (@callTool_frugal 2 1 name args
                (frugal_dispatch_other args Hname) _ _ _ _ E)
      as [new [S1 [L1 C1]]].
    exists new. split; [exact S1 |]. split; [lia |].
    split; [intros _; exact L1 | intros Hc; apply (C1 Hc)].
Qed.

Lemma tool_call_sends_at_most_four_requests_witness :
  (exists new,
      sent (after (callTool "create_timesheet"
                            (Scenario.create_args "09:00" "18:00" 60))
                  Scenario.office
                  {| employeeId := Some (Some "E1"); sent := [] |})
      = new
      /\ (List.length new <= 2)%nat)
  /\ List.length
       (sent (after (callTool "create_timesheet"
                              (Scenario.create_args "09:00" "18:00" 60))
                    Scenario.nameless fresh)) = 4%nat.
Proof.
  split; [| vm_compute; reflexivity].
  destruct (tool_call_sends_at_most_four_requests
              "create_timesheet" (Scenario.create_args "09:00" "18:00" 60)
              Scenario.office {| employeeId := Some (Some "E1"); sent := [] |})
    as [new [S1 [_ [_ C1]]]].
  exists new. split; [exact S1 |]. apply C1. discriminate.
Defined.

(** *** When a call throws *)

Lemma quiet_ret {A} (a : A) : quiet (ret a).
Proof. intros srv c code message c' H. discriminate H. Qed.

Lemma quiet_or_throw {A} (x : option A) : quiet (or_throw x).
Proof. intros srv c code message c' H. destruct x; discriminate H. Qed.

Lemma quiet_fetch endpoint : quiet (fetch endpoint).
Proof.
  intros srv c code message c' H. unfold fetch in H.
  destruct (srv (sent c) endpoint) as [response |];
    [destruct (ok response); simpl in H;
     [destruct (truthy_str (body response)); simpl in H;
      [destruct (parsed response) |] |] |];
    discriminate H.
Qed.

Lemma quiet_bind {A B} (m : M A) (k : A -> M B) :
  quiet m -> (forall a, quiet (k a)) -> quiet (bind m k).
Proof.
  intros Hm Hk srv c code message c' H. unfold bind in H.
  destruct (m srv c) as [[a | e] c1] eqn:E.
  - apply (Hk a _ _ _ _ _ H).
  - inversion H; subst. apply (Hm _ _ _ _ _ E).
Qed.

Lemma quiet_getEmployeeId : quiet getEmployeeId.
Proof.
  intros srv c code message c' H. unfold getEmployeeId in H.
  destruct (employeeId c); [discriminate H |].
  revert H. apply quiet_bind; [apply quiet_fetch |].
  intros j. apply quiet_bind; [| intros; apply quiet_ret].
  intros srv' c0 code' message' c0' H. discriminate H.
Qed.

Ltac quietly :=
  repeat first
    [ apply quiet_ret | apply quiet_or_throw | apply quiet_fetch
    | apply quiet_getEmployeeId
    | apply quiet_bind; [| intros ?] ].

Lemma early_throw {A} e : early (@throw A e).
Proof. intros srv c code message c' H. inversion H. reflexivity. Qed.

Lemma early_quiet {A} (m : M A) : quiet m -> early m.
Proof. intros Hm srv c code message c' H. destruct (Hm _ _ _ _ _ H). Qed.

Lemma early_update_timesheet args : early (update_timesheet args).
Proof.
  unfold update_timesheet, getTimesheet, updateTimesheet, success.
  destruct (timesheet_id args) as [id |]; [| apply early_throw].
  destruct (negb (truthy_num id)); [apply early_throw |].
  apply early_quiet. quietly.
Qed.

Lemma early_dispatch_other name args :
  name <> "create_timesheet" -> early (dispatch name args).
Proof.
  intros Hname. unfold dispatch.
  destruct (String.eqb_spec name "create_timesheet") as [E | _];
    [contradiction |].
  repeat match goal with
         | |- early (if (name =? ?s)%string then _ else _) =>
             destruct (name =? s)%string
         end;
    try apply early_update_timesheet; try apply early_throw;
    unfold searchClients, getProjectsForClient, getCategories, getLocations,
      getTimesheetDefaults, listTimesheets, getTimesheet, deleteTimesheet,
      success;
    repeat match goal with
           | |- early (match ?x with _ => _ end) =>
               destruct x; try apply early_throw
           end;
    apply early_quiet; quietly.
Qed.

Lemma required_cases args :
  required_missing args
  \/ exists clientId projectId categoryId date startTime endTime locationId,
      required_given args clientId projectId categoryId date startTime endTime
                     locationId.
Proof.
  unfold required_missing, missing.
  destruct (client_id args) as [[| a1 s1] |] eqn:E1; auto 12.
  destruct (project_id args) as [[| a2 s2] |] eqn:E2; auto 12.
  destruct (category_id args) as [[| a3 s3] |] eqn:E3; auto 12.
  destruct (Server.date args) as [[| a4 s4] |] eqn:E4; auto 12.
  destruct (start_time args) as [[| a5 s5] |] eqn:E5; auto 12.
  destruct (end_time args) as [[| a6 s6] |] eqn:E6; auto 12.
  destruct (location_id args) as [[| a7 s7] |] eqn:E7; auto 12.
  right. do 7 eexists.
  split; (split; [eassumption | discriminate]).
Qed.

Lemma create_timesheet_throws args srv c code message c' :
  create_timesheet args srv c = (Thrown (McpError code message), c') ->
  c' = c
  \/ (employeeId c = None
      /\ sent c' = (sent c ++ [GetEmployeeID])%list
      /\ exists empId, getEmployeeId srv c = (Returned empId, c')).
Proof.
  intros H.
  destruct (required_cases args)
    as [Hm | [clientId [projectId [categoryId [date [startTime [endTime
         [locationId Hg]]]]]]]].
  - rewrite (Create_facts.create_timesheet_missing srv c Hm) in H.
    inversion H. left. reflexivity.
  - rewrite (@Create_facts.create_timesheet_checked _ _ _ _ _ _ _ _ Hg) in H.
    unfold create_checked in H.
    destruct (getEmployeeId srv c) as [[empId | x] c1] eqn:E.
    + rewrite (@Update_facts.bind_returned _ _ _ _ _ _ _ _ E) in H.
      cbv zeta in H.
      destruct (nle (billable (calculateHours startTime endTime
                                              (Some (create_break args))))
                    (of_Z 0)).
      * inversion H; subst.
        destruct (employeeId c) as [e |] eqn:Hc.
        -- rewrite (getEmployeeId_cached srv c Hc) in E. inversion E. auto.
        -- right. split; [reflexivity |].
           pose proof (getEmployeeId_first srv c Hc) as S. unfold after in S.
           rewrite E in S. split; [exact S |].
           exists empId. reflexivity.
      * exfalso. revert H. unfold getClientRate, createTimesheet, success.
        match goal with
        | |- ?m srv c1 = _ -> False =>
            assert (Q : quiet m) by quietly; apply Q
        end.
    + exfalso. unfold bind in H. rewrite E in H. inversion H; subst.
      apply (@quiet_getEmployeeId _ _ _ _ _ E).
Qed.

(** X9.  All that the handler ever throws is a protocol error, and it
    throws it before anything is written: the client is then as it was
    before the call, except that [create_timesheet], which validates the
    time range after resolving the identity, may have sent the identity
    lookup and stored its result: the client is then as the returned
    lookup left it. *)
Theorem thrown_errors_come_before_any_write :
  forall name args srv c e c',
    callTool name args srv c = (Thrown e, c') ->
    (exists code message, e = McpError code message)
    /\ (c' = c
        \/ (name = "create_timesheet"
            /\ employeeId c = None
            /\ sent c' = (sent c ++ [GetEmployeeID])%list
            /\ exists empId, getEmployeeId srv c = (Returned empId, c'))).
Proof.
  intros name args srv c e c' H. unfold callTool, try_catch in H.
  destruct (dispatch name args srv c) as [[a | [code msg | msg]] c1] eqn:E;
    try discriminate H.
  inversion H; subst. split; [eauto |].
  destruct (String.eqb_spec name "create_timesheet") as [-> | Hname].
  - change (dispatch "create_timesheet" args) with (create_timesheet args) in E.
    destruct (@create_timesheet_throws _ _ _ _ _ _ E) as [-> | Hr]; auto.
  - left. eapply (early_dispatch_other args Hname). exact E.
Qed.

Lemma thrown_errors_come_before_any_write_witness :
  exists message,
    callTool "create_timesheet" (Scenario.create_args "10:00" "09:00" 0)
             Scenario.down
             {| employeeId := Some (Some "E1"); sent := [] |}
    = (Thrown (McpError InvalidParams message),
       {| employeeId := Some (Some "E1"); sent := [] |}).
Proof.
  destruct (callTool "create_timesheet" (Scenario.create_args "10:00" "09:00" 0)
                     Scenario.down
                     {| employeeId := Some (Some "E1"); sent := [] |})
    as [o c'] eqn:E.
  assert (Ho : exists message, o = Thrown (McpError InvalidParams message))
    by (vm_compute in E; inversion E; eexists; reflexivity).
  destruct Ho as [message ->]. exists message.
  destruct (thrown_errors_come_before_any_write _ _ _ _ E) as [_ [-> | [_ [N _]]]];
    [reflexivity | discriminate N].
Defined.

(** *** Bodies the transport cannot read *)

(** X14.  An identity lookup that is answered 2xx with an empty body
    stores an undefined identity: the call returns undefined, and every
    later call returns undefined again without asking the service. *)
Theorem empty_identity_answer_is_stored :
  forall srv c response,
    employeeId c = None ->
    srv (sent c) GetEmployeeID = Some response ->
    ok response = true -> body response = "" ->
    getEmployeeId srv c
    = (Returned (Some None),
       {| employeeId := Some None; sent := (sent c ++ [GetEmployeeID])%list |})
    /\ forall srv',
        getEmployeeId srv'
          {| employeeId := Some None; sent := (sent c ++ [GetEmployeeID])%list |}
        = (Returned (Some None),
           {| employeeId := Some None;
              sent := (sent c ++ [GetEmployeeID])%list |}).
Proof.
  intros srv c response Hc Hr Hok Hb. split.
  - unfold getEmployeeId, bind, fetch. rewrite Hc, Hr, Hok, Hb. reflexivity.
  - intros srv'. apply getEmployeeId_cached. reflexivity.
Qed.

Lemma empty_identity_answer_is_stored_witness :
  getEmployeeId (fun _ _ => Scenario.no_content) fresh
  = (Returned (Some None),
     {| employeeId := Some None; sent := [GetEmployeeID] |}).
Proof.
  apply (@empty_identity_answer_is_stored
           (fun _ _ => Scenario.no_content) fresh
           {| status := 200; statusText := "OK"; body := ""; parsed := None |});
    reflexivity.
Defined.

(** X16.  [delete_timesheet] with a usable id sends the one delete request
    and nothing else; it reports success exactly when the answer has a 2xx
    status and a body that is empty or can be parsed, so that a 2xx answer
    with an unreadable body is reported as a failure. *)
Theorem delete_reports_what_the_transport_reads :
  forall args srv c id response,
    timesheet_id args = Some id -> truthy_num id = true ->
    srv (sent c) (DeleteTimesheet id) = Some response ->
    exists result,
      callTool "delete_timesheet" args srv c
      = (Returned result,
         {| employeeId := employeeId c;
            sent := (sent c ++ [DeleteTimesheet id])%list |})
      /\ (isError result = false <->
          ok response = true
          /\ (body response = "" \/ parsed response <> None)).
Proof.
  intros args srv c id response Hid Ht Hr.
  unfold callTool, try_catch.
  change (dispatch "delete_timesheet" args)
    with (match timesheet_id args with
          | Some timesheetId =>
              if negb (truthy_num timesheetId) then
                throw (McpError InvalidParams [Lit "timesheet_id is required"])
              else
                _ <- deleteTimesheet timesheetId ;;
                success (BodyMessage
                           [Lit "Timesheet "; Val timesheetId;
                            Lit " deleted successfully"])
          | None =>
              throw (McpError InvalidParams [Lit "timesheet_id is required"])
          end).
  rewrite Hid, Ht. change (negb true) with false.
  cbv beta iota delta [deleteTimesheet bind fetch success ret]. rewrite Hr.
  destruct (ok response) eqn:Hok; simpl.
  - destruct (body response) as [| x b] eqn:Hb; simpl.
    + eexists. split; [reflexivity |]. simpl. intuition.
    + destruct (parsed response) as [j |] eqn:Hp; simpl.
      * eexists. split; [reflexivity |]. simpl.
        intuition discriminate.
      * eexists. split; [reflexivity |]. simpl.
        split; [discriminate |]. intros [_ [H | H]]; [discriminate H |].
        contradiction.
  - eexists. split; [reflexivity |]. simpl.
    split; [discriminate |]. intros [H _]. discriminate H.
Qed.

Lemma delete_reports_what_the_transport_reads_witness :
  exists result,
    callTool "delete_timesheet" Scenario.update_only_id Scenario.office fresh
    = (Returned result,
       {| employeeId := None; sent := [DeleteTimesheet (of_Z 42)] |})
    /\ isError result = false.
Proof.
  destruct (@delete_reports_what_the_transport_reads
              Scenario.update_only_id Scenario.office fresh (of_Z 42)
              {| status := 200; statusText := "OK"; body := ""; parsed := None |}
              eq_refl eq_refl eq_refl)
    as [result [E I]].
  exists result. split; [exact E |]. apply I. split; [reflexivity |].
  left. reflexivity.
Defined.

End Dispatcher_facts.

(** ** Payloads at the edges of the merge and of the derivation *)

Module Payload_facts.
Import Js TimeProClient Server Spec Coverage Hours_facts Transport_facts
       Update_facts Create_facts Format_facts.
Local Open Scope string_scope.
Local Open Scope js_scope.

Lemma hhmm_two_parts h m :
  wall_clock h m -> List.length (split ":" (hhmm h m)) = 2%nat.
Proof.
  intros [Hh Hm].
  assert (A : forallb (fun h => forallb (two_parts h) (seq 0 60)) (seq 0 24) = true)
    by (vm_compute; reflexivity).
  pose proof (below_forallb (fun h => forallb (two_parts h) (seq 0 60)) A Hh) as B.
  pose proof (below_forallb (two_parts h) B Hm) as C.
  apply Nat.eqb_eq. exact C.
Qed.

Lemma formatDateTime_hhmm date h m :
  wall_clock h m -> formatDateTime date (hhmm h m) = date ++ "T" ++ hhmm h m ++ ":00".
Proof.
  intros H. unfold formatDateTime. rewrite (hhmm_two_parts H). reflexivity.
Qed.

Lemma or_else_missing x y : missing x -> or_else truthy_str x y = y.
Proof. intros [-> | ->]; reflexivity. Qed.

(** X10.  The break of an update follows presence, like the note: any
    override is taken, zero included, and nothing checks it.  With the
    stored times [HH:MM...] and no override of the times, the payload has
    the override divided by 60 as its break, the billable hours
    (end - start - override) / 60 and the total hours (end - start) / 60,
    whatever their sign. *)
Theorem update_takes_any_break_override :
  forall args srv c id existing created empId c2
         (sh sm eh em : nat) (rest1 rest2 : string) (q : Q),
    reaches_save args srv c id existing created
                 (hhmm sh sm ++ rest1) (hhmm eh em ++ rest2) empId c2 ->
    start_time args = None -> end_time args = None ->
    break_minutes args = Some (Fin q) ->
    wall_clock sh sm -> wall_clock eh em ->
    exists dto,
      sent (after (update_timesheet args) srv c)
      = (sent c2 ++ [SaveTimesheet true dto])%list
      /\ same_num (Dto.TimeLess dto) (Fin (q / 60))
      /\ same_num (Dto.TimeBillable dto)
                  (Fin ((clock eh em - clock sh sm - q) / 60))
      /\ same_num (Dto.TimeTotal dto) (Fin ((clock eh em - clock sh sm) / 60)).
Proof.
  intros args srv c id existing created empId c2 sh sm eh em r1 r2 q
         H Hst Het Hbr Hs He.
  eexists. split; [apply (update_timesheet_submits H) |].
  cbv beta delta [update_payload Dto.TimeBillable Dto.TimeTotal Dto.TimeLess]
      iota zeta.
  rewrite Hst, Het, Hbr.
  cbv beta delta [or_else if_defined to_num] iota.
  rewrite !substring_hhmm, (calculateHours_wall_clock q Hs He).
  cbv beta delta [total billable] iota. rewrite ndiv_60.
  cbv beta delta [nadd same_num] iota.
  change (inject_Z 60) with 60%Q.
  rewrite worked_clock, !div60. repeat split; lra.
Qed.

Lemma update_takes_any_break_override_witness :
  exists dto,
    sent (after (update_timesheet
                   (Scenario.with_times Scenario.update_only_id None None
                                        (Some (of_Z 0))))
                Scenario.office fresh)
    = [GetEditTimesheetsView (of_Z 42); GetEmployeeID; SaveTimesheet true dto]
    /\ same_num (Dto.TimeLess dto) (of_Z 0)
    /\ same_num (Dto.TimeBillable dto) (of_Z 9).
Proof.
  assert (R : reaches_save
                (Scenario.with_times Scenario.update_only_id None None
                                     (Some (of_Z 0)))
                Scenario.office fresh (of_Z 42) Scenario.stored
                "2024-01-15T00:00:00" (hhmm 9 0 ++ ":00") (hhmm 18 0 ++ ":00")
                (Some (Some "E1"))
                {| employeeId := Some (Some "E1");
                   sent := [GetEditTimesheetsView (of_Z 42); GetEmployeeID] |}).
  { split; try reflexivity. eexists. split; reflexivity. }
  destruct (@update_takes_any_break_override _ _ _ _ _ _ _ _ 9 0 18 0
              ":00" ":00" (inject_Z 0) R eq_refl eq_refl eq_refl)
    as [dto [Hs [Hl [Hb _]]]]; try (unfold wall_clock; lia).
  exists dto. split; [exact Hs |]. split.
  - eapply same_num_trans; [exact Hl |]. vm_compute. reflexivity.
  - eapply same_num_trans; [exact Hb |]. vm_compute. reflexivity.
Defined.

Lemma or_method_missing x m :
  missing x -> or_method x None m = None.
Proof. intros [-> | ->]; reflexivity. Qed.

Lemma getTimesheet_sent id srv c existing c1 :
  getTimesheet id srv c = (Returned existing, c1) ->
  sent c1 = (sent c ++ [GetEditTimesheetsView id])%list
  /\ employeeId c1 = employeeId c.
Proof.
  intros H. unfold getTimesheet, bind, fetch in H.
  destruct (srv (sent c) (GetEditTimesheetsView id)) as [response |];
    [destruct (ok response); simpl in H;
     [destruct (truthy_str (body response)); simpl in H;
      [destruct (parsed response) |] |] |];
    inversion H; subst; auto.
Qed.

(** X11.  When the fetched record lacks its date, its start time or its end
    time (an answer with an empty body lacks all three) and the call does
    not override the lacking field with a non-empty value, the update ends
    as a failed result right after the fetch: neither the identity lookup
    nor the save request is sent. *)
Theorem update_stops_on_a_record_without_times :
  forall args srv c id existing c1,
    timesheet_id args = Some id -> truthy_num id = true ->
    getTimesheet id srv c = (Returned existing, c1) ->
    (missing (date args) /\ Details.DateCreated existing = None)
    \/ (missing (start_time args) /\ Details.StartTime existing = None)
    \/ (missing (end_time args) /\ Details.EndTime existing = None) ->
    exists message,
      callTool "update_timesheet" args srv c
      = (Returned (failed_result message), c1)
      /\ sent c1 = (sent c ++ [GetEditTimesheetsView id])%list
      /\ employeeId c1 = employeeId c.
Proof.
  intros args srv c id existing c1 Hid Ht Hf Hlack.
  exists [Lit "Cannot read properties of undefined"].
  split; [| apply (getTimesheet_sent _ _ _ Hf)].
  unfold callTool, try_catch.
  change (dispatch "update_timesheet" args) with (update_timesheet args).
  unfold update_timesheet. rewrite Hid, Ht. change (negb true) with false.
  cbv iota. rewrite (@bind_returned _ _ _ _ _ _ _ _ Hf).
  destruct (or_method (date args) (Details.DateCreated existing)
                      (fun s => hd EmptyString (split "T" s))) as [d |] eqn:Ed;
    [| reflexivity].
  destruct (or_method (start_time args) (Details.StartTime existing)
                      (substring 0 5)) as [st |] eqn:Es;
    [| reflexivity].
  destruct (or_method (end_time args) (Details.EndTime existing)
                      (substring 0 5)) as [et |] eqn:Ee;
    [| reflexivity].
  exfalso.
  destruct Hlack as [[Hm Hn] | [[Hm Hn] | [Hm Hn]]].
  - rewrite Hn, (or_method_missing _ Hm) in Ed. discriminate Ed.
  - rewrite Hn, (or_method_missing _ Hm) in Es. discriminate Es.
  - rewrite Hn, (or_method_missing _ Hm) in Ee. discriminate Ee.
Qed.

Lemma update_stops_on_a_record_without_times_witness :
  exists message,
    callTool "update_timesheet" Scenario.update_only_id
             (fun _ _ => Scenario.no_content) fresh
    = (Returned (failed_result message),
       {| employeeId := None; sent := [GetEditTimesheetsView (of_Z 42)] |}).
Proof.
  destruct (@update_stops_on_a_record_without_times
              Scenario.update_only_id (fun _ _ => Scenario.no_content) fresh
              (of_Z 42) Details.empty
              {| employeeId := None; sent := [GetEditTimesheetsView (of_Z 42)] |}
              eq_refl eq_refl eq_refl)
    as [message [E _]].
  - left. split; [left; reflexivity | reflexivity].
  - exists message. exact E.
Defined.

(** X12.  No payload carries a tax rate of zero: an update sends the
    stored rate when that is a number other than zero, and 0.1 when the
    stored rate is zero, not a number or absent; a create call sends
    0.1. *)
Theorem tax_rate_is_never_zero :
  (forall args srv c id existing created start finish empId c2,
      reaches_save args srv c id existing created start finish empId c2 ->
      exists dto,
        sent (after (update_timesheet args) srv c)
        = (sent c2 ++ [SaveTimesheet true dto])%list
        /\ truthy_num (Dto.SalesTaxPct dto) = true
        /\ (forall t, Details.SalesTaxPct existing = Some t ->
                      truthy_num t = true -> Dto.SalesTaxPct dto = t)
        /\ (truthy truthy_num (Details.SalesTaxPct existing) = false ->
            Dto.SalesTaxPct dto = Fin (1 # 10)))
  /\ (forall args srv c clientId projectId categoryId date startTime endTime
             locationId empId c1 rateInfo c2,
        required_given args clientId projectId categoryId date startTime
                       endTime locationId ->
        getEmployeeId srv c = (Returned empId, c1) ->
        nle (billable (calculateHours startTime endTime
                                      (Some (create_break args))))
            (of_Z 0) = false ->
        getClientRate clientId srv c1 = (Returned rateInfo, c2) ->
        exists dto,
          sent (after (create_timesheet args) srv c)
          = (sent c2 ++ [SaveTimesheet false dto])%list
          /\ (empId <> None ->
              sent c2 = (sent c1 ++ [GetClientRate empId clientId])%list)
          /\ Dto.SalesTaxPct dto = Fin (1 # 10)).
Proof.
  split.
  - intros args srv c id existing created start finish empId c2 H.
    eexists. split; [apply (update_timesheet_submits H) |].
    cbv beta delta [update_payload Dto.SalesTaxPct] iota zeta.
    destruct (Details.SalesTaxPct existing) as [t |]; simpl.
    + destruct (truthy_num t) eqn:Et; repeat split; auto.
      * intros t' E. inversion E; subst. reflexivity.
      * discriminate.
      * intros t' E Ht'. inversion E; subst. congruence.
    + repeat split; auto. intros t E. discriminate E.
  - intros args srv c clientId projectId categoryId date startTime endTime
           locationId empId c1 rateInfo c2 Hreq Hid Hn Hrate.
    eexists. split; [| split].
    + rewrite (@create_timesheet_checked _ _ _ _ _ _ _ _ Hreq).
      apply (@create_checked_submits args clientId projectId categoryId date
               startTime endTime locationId srv c empId c1 rateInfo c2
               Hid Hn Hrate).
    + intros Hnn.
      apply (@rate_lookup_after_identity _ _ _ _ _ _ _ Hid Hnn Hrate).
    + reflexivity.
Qed.

Lemma tax_rate_is_never_zero_witness :
  exists dto,
    sent (after (update_timesheet Scenario.update_only_id)
                Scenario.office fresh)
    = [GetEditTimesheetsView (of_Z 42); GetEmployeeID; SaveTimesheet true dto]
    /\ truthy_num (Dto.SalesTaxPct dto) = true.
Proof.
  destruct tax_rate_is_never_zero as [Hupd _].
  destruct (Hupd _ _ _ _ _ _ _ _ _ _
                 (@stored_reaches_save Scenario.update_only_id eq_refl))
    as [dto [Hs [Ht _]]].
  exists dto. split; [exact Hs | exact Ht].
Defined.

(** X13.  An update that does not override the times does not keep the
    seconds of the stored times: whatever follows [HH:MM] in the stored
    start and end time, the payload carries the date, a [T], the [HH:MM]
    and [:00]. *)
Theorem update_resets_the_seconds :
  forall args srv c id existing created empId c2
         (sh sm eh em : nat) (rest1 rest2 : string),
    reaches_save args srv c id existing created
                 (hhmm sh sm ++ rest1) (hhmm eh em ++ rest2) empId c2 ->
    missing (start_time args) -> missing (end_time args) ->
    wall_clock sh sm -> wall_clock eh em ->
    exists dto,
      sent (after (update_timesheet args) srv c)
      = (sent c2 ++ [SaveTimesheet true dto])%list
      /\ Dto.TimeStart dto = Dto.DateCreated dto ++ "T" ++ hhmm sh sm ++ ":00"
      /\ Dto.TimeEnd dto = Dto.DateCreated dto ++ "T" ++ hhmm eh em ++ ":00".
Proof.
  intros args srv c id existing created empId c2 sh sm eh em r1 r2
         H Hst Het Hs He.
  eexists. split; [apply (update_timesheet_submits H) |].
  cbv beta delta [update_payload Dto.TimeStart Dto.TimeEnd Dto.DateCreated]
      iota zeta.
  rewrite (or_else_missing _ Hst), (or_else_missing _ Het), !substring_hhmm.
  rewrite (formatDateTime_hhmm _ Hs), (formatDateTime_hhmm _ He).
  split; reflexivity.
Qed.

Lemma update_resets_the_seconds_witness :
  exists dto,
    sent (after (update_timesheet Scenario.update_only_id)
                (fun history r =>
                   match r with
                   | GetEditTimesheetsView _ =>
                       Scenario.answer
                         (JDetails
                            {| Details.TimesheetID := None;
                               Details.ClientID := None;
                               Details.ClientName := None;
                               Details.ProjectID := None;
                               Details.CategoryID := None;
                               Details.LocationID := None;
                               Details.BillableID := None;
                               Details.DateCreated := Some "2024-01-15";
                               Details.StartTime := Some "09:00:45";
                               Details.EndTime := Some "18:00:30";
                               Details.TimeLess := None;
                               Details.TimeTotal := None;
                               Details.TimeBillable := None;
                               Details.SellPrice := None;
                               Details.SalesTaxPct := None;
                               Details.Note := None |})
                   | _ => Scenario.office history r
                   end)
                fresh)
    = [GetEditTimesheetsView (of_Z 42); GetEmployeeID; SaveTimesheet true dto]
    /\ Dto.TimeStart dto = "2024-01-15T09:00:00"
    /\ Dto.TimeEnd dto = "2024-01-15T18:00:00".
Proof.
  match goal with
  | |- exists dto, sent (after _ ?srv _) = _ /\ _ =>
      assert (R : reaches_save Scenario.update_only_id srv fresh (of_Z 42)
                    {| Details.TimesheetID := None;
                       Details.ClientID := None;
                       Details.ClientName := None;
                       Details.ProjectID := None;
                       Details.CategoryID := None;
                       Details.LocationID := None;
                       Details.BillableID := None;
                       Details.DateCreated := Some "2024-01-15";
                       Details.StartTime := Some "09:00:45";
                       Details.EndTime := Some "18:00:30";
                       Details.TimeLess := None;
                       Details.TimeTotal := None;
                       Details.TimeBillable := None;
                       Details.SellPrice := None;
                       Details.SalesTaxPct := None;
                       Details.Note := None |}
                    "2024-01-15" (hhmm 9 0 ++ ":45") (hhmm 18 0 ++ ":30")
                    (Some (Some "E1"))
                    {| employeeId := Some (Some "E1");
                       sent := [GetEditTimesheetsView (of_Z 42);
                                GetEmployeeID] |})
  end.
  { split; try reflexivity. eexists. split; reflexivity. }
  destruct (@update_resets_the_seconds _ _ _ _ _ _ _ _ 9 0 18 0 ":45" ":30" R)
    as [dto [Hs [Ha Hb]]];
    try (left; reflexivity); try (unfold wall_clock; lia).
  exists dto. split; [exact Hs |].
  assert (D : Dto.DateCreated dto = "2024-01-15").
  { apply app_inv_head in Hs. inversion Hs. reflexivity. }
  rewrite D in Ha, Hb. split; [exact Ha | exact Hb].
Defined.



End Payload_facts.
